(** * Weather app client layer: session store, API client, geolocation
      formatting and export formatters, embedded from the TypeScript sources

    - [Js]          : the fragment of the JavaScript platform the sources use
                      (strings, IEEE-754 numbers, [Number.prototype.toFixed]).
    - [Geolocation] : [lib/geolocation.ts], [formatCoordinates].
    - [ExportUtils] : [lib/export-utils.ts], the XML, CSV and Markdown exports.
    - [ApiClient]   : the [WeatherAPIClient] class (session token, request
                      construction, response handling, every network method).

    JavaScript numbers are the kernel's binary64 floats, so that sums, quotients
    and decimal renderings are those of the running program.  Strings are byte
    strings holding the UTF-8 encoding of the source text. *)

From Stdlib Require Import ZArith Lia Ascii String List Bool.
From Stdlib Require Import Numbers.DecimalString.
From Stdlib Require Import Floats.PrimFloat Floats.SpecFloat Floats.FloatOps Floats.FloatAxioms.
From Stdlib Require Import Numbers.Cyclic.Int63.Uint63.
From stdpp Require Import base option gmap strings.

Import ListNotations.

#[local] Set Warnings "-inexact-float".

(* ===================================================================== *)
(** * The JavaScript platform                                             *)
(* ===================================================================== *)

Module Js.

(** ** Strings *)

Definition nl : string := String (ascii_of_nat 10) EmptyString.
Definition dq : string := String (ascii_of_nat 34) EmptyString.

(** [s.replace(/c/g, r)] for a one-character pattern [c]. *)
Fixpoint replaceAll (c : ascii) (r : string) (s : string) : string :=
  match s with
  | EmptyString => EmptyString
  | String a rest =>
      if Ascii.eqb a c then r +:+ replaceAll c r rest
      else String a (replaceAll c r rest)
  end.

(** [s.includes(needle)]. *)
Fixpoint includes (needle s : string) : bool :=
  String.prefix needle s ||
  match s with
  | EmptyString => false
  | String _ rest => includes needle rest
  end.

(** [parts.join(sep)] on an array of strings. *)
Definition join (sep : string) (parts : list string) : string :=
  String.concat sep parts.

(** Truthiness of a string: every string but the empty one. *)
Definition truthy_string (s : string) : bool :=
  negb (String.eqb s EmptyString).

(** [m || fallback] for [m] of type [string | undefined]. *)
Definition or_else (m : option string) (fallback : string) : string :=
  match m with
  | Some s => if truthy_string s then s else fallback
  | None => fallback
  end.

(** [a.repeat(n)] for a one-character string. *)
Fixpoint repeat_char (a : ascii) (n : nat) : string :=
  match n with
  | O => EmptyString
  | S k => String a (repeat_char a k)
  end.

(** [x] occurs in [s]. *)
Definition occurs_in (x s : string) : Prop :=
  exists pre post, s = pre +:+ x +:+ post.

(** Every character of [s] is a decimal digit. *)
Fixpoint all_digits (s : string) : bool :=
  match s with
  | EmptyString => true
  | String a rest =>
      (48 <=? nat_of_ascii a)%nat && (nat_of_ascii a <=? 57)%nat && all_digits rest
  end.

(** ** Numbers *)

(** Truthiness of a number: neither [0], [-0] nor [NaN]. *)
Definition truthy_number (x : float) : bool :=
  match Prim2SF x with
  | S754_zero _ | S754_nan => false
  | _ => true
  end.

(** Decimal digits of a non-negative integer. *)
Definition decimal (n : Z) : string :=
  NilZero.string_of_uint (N.to_uint (Z.to_N n)).

(** The integer [n] for which [n / 10^f - m * 2^e] is as close to zero as
    possible, the larger one when there are two (step 10.a of
    [Number.prototype.toFixed]). *)
Definition scaled_round (m : positive) (e : Z) (f : nat) : Z :=
  let num := (Z.pos m * 10 ^ Z.of_nat f)%Z in
  if (0 <=? e)%Z then (num * 2 ^ e)%Z
  else ((2 * num + 2 ^ (- e)) / (2 * 2 ^ (- e)))%Z.

(** [m * 2^e >= 10^21], exactly. *)
Definition at_least_1e21 (m : positive) (e : Z) : bool :=
  if (0 <=? e)%Z then (10 ^ 21 <=? Z.pos m * 2 ^ e)%Z
  else (10 ^ 21 * 2 ^ (- e) <=? Z.pos m)%Z.

(** Steps 10.b to 10.d of [toFixed]: the digits of [n], left-padded with
    zeros to [f + 1] characters, with a point before the last [f]. *)
Definition place_point (n : Z) (f : nat) : string :=
  let m := decimal n in
  match f with
  | O => m
  | S _ =>
      let k := String.length m in
      let m' := if (k <=? f)%nat then repeat_char "0"%char (f + 1 - k) +:+ m else m in
      let k' := String.length m' in
      String.substring 0 (k' - f) m' +:+ "." +:+ String.substring (k' - f) f m'
  end.

(** The doubles that [toFixed] renders digit by digit: the finite ones below
    [10^21] in magnitude. *)
Definition in_fixed_range (x : float) : bool :=
  match Prim2SF x with
  | S754_zero _ => true
  | S754_finite _ m e => negb (at_least_1e21 m e)
  | _ => false
  end.

Section Platform.

(** [Number::toString] on a finite non-zero double (the shortest decimal
    that reads back as the same double) is left to the platform. *)
Variable finite_toString : float -> string.

(** [String(x)], the rendering of a number inside a template literal. *)
Definition Number_toString (x : float) : string :=
  match Prim2SF x with
  | S754_nan => "NaN"
  | S754_zero _ => "0"
  | S754_infinity false => "Infinity"
  | S754_infinity true => "-Infinity"
  | S754_finite _ _ _ => finite_toString x
  end.

(** [x.toFixed(f)] for [0 <= f <= 100]. *)
Definition toFixed (x : float) (f : nat) : string :=
  match Prim2SF x with
  | S754_nan | S754_infinity _ => Number_toString x
  | S754_zero _ => place_point 0 f
  | S754_finite s m e =>
      (if s then "-" else "") +:+
      (if at_least_1e21 m e then Number_toString (abs x)
       else place_point (scaled_round m e f) f)
  end.

End Platform.

(** A rendering of integer-valued doubles below [10^21], on which it agrees
    with [Number::toString]; used to run the exports on concrete records whose
    numeric fields are integers. *)
Definition integral_toString (x : float) : string :=
  match Prim2SF x with
  | S754_finite s m e =>
      (if s then "-" else "") +:+
      (if at_least_1e21 m e then "?"
       else if (0 <=? e)%Z then decimal (Z.pos m * 2 ^ e)
       else if (Z.pos m mod 2 ^ (- e) =? 0)%Z then decimal (Z.pos m / 2 ^ (- e))
       else "?")
  | _ => ""
  end.

End Js.

(* ===================================================================== *)
(** * lib/geolocation.ts                                                  *)
(* ===================================================================== *)

Module Geolocation.

Section WithPlatform.

Variable finite_toString : float -> string.

Definition formatCoordinates (lat lon : float) : string :=
  let latDir := if (0 <=? lat)%float then "N" else "S" in
  let lonDir := if (0 <=? lon)%float then "E" else "W" in
  Js.toFixed finite_toString (abs lat) 4 +:+ "°" +:+ latDir +:+ ", " +:+
  Js.toFixed finite_toString (abs lon) 4 +:+ "°" +:+ lonDir.

End WithPlatform.

End Geolocation.

(* ===================================================================== *)
(** * The record types of the API (interfaces of the API client module)  *)
(* ===================================================================== *)

Module Model.

Record WeatherDataItem := {
  date : string;
  temperature_max : float;
  temperature_min : float;
  temperature_mean : option float;
  feels_like_max : float;
  feels_like_min : float;
  precipitation : float;
  rain : float;
  weather_code : float;
  weather_description : string;
  wind_speed_max : float;
  wind_direction : float
}.

Record WeatherRequest := {
  id : float;
  location_name : string;
  country : string;
  latitude : float;
  longitude : float;
  timezone : string;
  start_date : string;
  end_date : string;
  weather_data : list WeatherDataItem;
  notes : string;
  created_at : string;
  updated_at : string
}.

End Model.

(* ===================================================================== *)
(** * lib/export-utils.ts                                                 *)
(* ===================================================================== *)

Module ExportUtils.

Import Model.

(** The one effect of an export: the call
    [downloadFile(content, filename, mimeType)]. *)
Record Download := {
  content : string;
  filename : string;
  mimeType : string
}.

Definition downloadFile (content filename mimeType : string) : Download :=
  {| content := content; filename := filename; mimeType := mimeType |}.

(** A template literal, as the sequence of its fragments. *)
Definition tpl (parts : list string) : string := String.concat "" parts.

Definition escapeXml (unsafe : string) : string :=
  Js.replaceAll "'"%char "&apos;"
    (Js.replaceAll (ascii_of_nat 34) "&quot;"
      (Js.replaceAll ">"%char "&gt;"
        (Js.replaceAll "<"%char "&lt;"
          (Js.replaceAll "&"%char "&amp;" unsafe)))).

(** What escaping is to achieve, character by character: each of the five
    XML metacharacters becomes its entity, in one pass, and nothing else
    changes. *)
Definition escape_char (a : ascii) : string :=
  if Ascii.eqb a "&" then "&amp;"
  else if Ascii.eqb a "<" then "&lt;"
  else if Ascii.eqb a ">" then "&gt;"
  else if Ascii.eqb a (ascii_of_nat 34) then "&quot;"
  else if Ascii.eqb a "'" then "&apos;"
  else String a EmptyString.

Fixpoint escape_each (s : string) : string :=
  match s with
  | EmptyString => EmptyString
  | String a rest => escape_char a +:+ escape_each rest
  end.

(** [request.weather_data.length] as a number (exact: an array length is
    below [2^32]). *)
Definition length_number {A} (l : list A) : float :=
  of_uint63 (Uint63.of_Z (Z.of_nat (length l))).

(** [data.reduce((sum, d) => sum + field(d), 0)]. *)
Definition reduce_sum (field : WeatherDataItem -> float)
    (data : list WeatherDataItem) : float :=
  fold_left (fun sum d => (sum + field d)%float) data 0%float.

(** [day.temperature_mean ? ... : ...]: the optional field is there and is
    neither [0] nor [NaN]. *)
Definition truthy_mean (day : WeatherDataItem) : option float :=
  match temperature_mean day with
  | Some t => if Js.truthy_number t then Some t else None
  | None => None
  end.

Section WithPlatform.

Variable finite_toString : float -> string.

Let num (x : float) : string := Js.Number_toString finite_toString x.
Let fixed1 (x : float) : string := Js.toFixed finite_toString x 1.

Definition export_filename (request : WeatherRequest) (ext : string) : string :=
  tpl ["weather-data-"; location_name request; "-"; start_date request; "_";
       end_date request; "."; ext].

(** *** XML *)

Definition xml_day (day : WeatherDataItem) : string :=
  tpl ["    <day>"; Js.nl;
       "      <date>"; date day; "</date>"; Js.nl;
       "      <temperatureMax>"; num (temperature_max day); "</temperatureMax>"; Js.nl;
       "      <temperatureMin>"; num (temperature_min day); "</temperatureMin>"; Js.nl;
       "      ";
       match truthy_mean day with
       | Some t => tpl ["<temperatureMean>"; num t; "</temperatureMean>"]
       | None => ""
       end; Js.nl;
       "      <feelsLikeMax>"; num (feels_like_max day); "</feelsLikeMax>"; Js.nl;
       "      <feelsLikeMin>"; num (feels_like_min day); "</feelsLikeMin>"; Js.nl;
       "      <precipitation>"; num (precipitation day); "</precipitation>"; Js.nl;
       "      <rain>"; num (rain day); "</rain>"; Js.nl;
       "      <weatherCode>"; num (weather_code day); "</weatherCode>"; Js.nl;
       "      <weatherDescription>"; escapeXml (weather_description day);
       "</weatherDescription>"; Js.nl;
       "      <windSpeedMax>"; num (wind_speed_max day); "</windSpeedMax>"; Js.nl;
       "      <windDirection>"; num (wind_direction day); "</windDirection>"; Js.nl;
       "    </day>"].

Definition xml_document (request : WeatherRequest) : string :=
  tpl ["<?xml version="; Js.dq; "1.0"; Js.dq; " encoding="; Js.dq; "UTF-8"; Js.dq; "?>"; Js.nl;
       "<WeatherRequest>"; Js.nl;
       "  <id>"; num (id request); "</id>"; Js.nl;
       "  <location>"; Js.nl;
       "    <name>"; escapeXml (location_name request); "</name>"; Js.nl;
       "    <country>"; escapeXml (country request); "</country>"; Js.nl;
       "    <latitude>"; num (latitude request); "</latitude>"; Js.nl;
       "    <longitude>"; num (longitude request); "</longitude>"; Js.nl;
       "    <timezone>"; escapeXml (timezone request); "</timezone>"; Js.nl;
       "  </location>"; Js.nl;
       "  <dateRange>"; Js.nl;
       "    <startDate>"; start_date request; "</startDate>"; Js.nl;
       "    <endDate>"; end_date request; "</endDate>"; Js.nl;
       "  </dateRange>"; Js.nl;
       "  <notes>";
       escapeXml (if Js.truthy_string (notes request) then notes request else "");
       "</notes>"; Js.nl;
       "  <weatherData>"; Js.nl;
       Js.join Js.nl (map xml_day (weather_data request)); Js.nl;
       "  </weatherData>"; Js.nl;
       "  <metadata>"; Js.nl;
       "    <createdAt>"; created_at request; "</createdAt>"; Js.nl;
       "    <updatedAt>"; updated_at request; "</updatedAt>"; Js.nl;
       "  </metadata>"; Js.nl;
       "</WeatherRequest>"].

Definition exportAsXML (request : WeatherRequest) : Download :=
  downloadFile (xml_document request) (export_filename request "xml") "application/xml".

(** *** CSV *)

Definition csv_headers : list string :=
  ["Date"; "Temperature Max (°C)"; "Temperature Min (°C)"; "Temperature Mean (°C)";
   "Feels Like Max (°C)"; "Feels Like Min (°C)"; "Precipitation (mm)"; "Rain (mm)";
   "Weather Code"; "Weather Description"; "Wind Speed Max (km/h)";
   "Wind Direction (°)"].

(** One element of [rows], already converted to the strings that
    [row.join(",")] concatenates. *)
Definition csv_row (day : WeatherDataItem) : list string :=
  [date day;
   num (temperature_max day);
   num (temperature_min day);
   match truthy_mean day with Some t => num t | None => "" end;
   num (feels_like_max day);
   num (feels_like_min day);
   num (precipitation day);
   num (rain day);
   num (weather_code day);
   tpl [Js.dq; weather_description day; Js.dq];
   num (wind_speed_max day);
   num (wind_direction day)].

Definition csv_metadata (request : WeatherRequest) : string :=
  Js.join Js.nl
    (List.filter Js.truthy_string
       [tpl ["# Weather Data for "; location_name request; ", "; country request];
        tpl ["# Date Range: "; start_date request; " to "; end_date request];
        tpl ["# Location: "; num (latitude request); ", "; num (longitude request)];
        tpl ["# Timezone: "; timezone request];
        if Js.truthy_string (notes request) then tpl ["# Notes: "; notes request] else "";
        ""]).

Definition csv_document (request : WeatherRequest) : string :=
  csv_metadata request +:+
  Js.join "," csv_headers +:+
  Js.nl +:+
  Js.join Js.nl (map (fun row => Js.join "," row) (map csv_row (weather_data request))).

Definition exportAsCSV (request : WeatherRequest) : Download :=
  downloadFile (csv_document request) (export_filename request "csv") "text/csv".

(** *** Markdown *)

Definition markdown_row (day : WeatherDataItem) : string :=
  tpl ["| "; date day;
       " | "; num (temperature_max day); "°C";
       " | "; num (temperature_min day); "°C";
       " | "; match truthy_mean day with Some t => num t +:+ "°C" | None => "N/A" end;
       " | "; num (feels_like_max day); "°C";
       " | "; num (feels_like_min day); "°C";
       " | "; num (precipitation day); "mm";
       " | "; num (rain day); "mm";
       " | "; weather_description day;
       " | "; num (wind_speed_max day); "km/h";
       " | "; num (wind_direction day); "° |"].

Definition markdown_head (request : WeatherRequest) : list string :=
  ["# Weather Data Report"; Js.nl;
   Js.nl;
   "## Location Information"; Js.nl;
   "- **Location:** "; location_name request; ", "; country request; Js.nl;
   "- **Coordinates:** "; num (latitude request); ", "; num (longitude request); Js.nl;
   "- **Timezone:** "; timezone request; Js.nl;
   Js.nl;
   "## Date Range"; Js.nl;
   "- **Start Date:** "; start_date request; Js.nl;
   "- **End Date:** "; end_date request; Js.nl;
   "- **Duration:** "; Js.decimal (Z.of_nat (length (weather_data request))); " days"; Js.nl;
   Js.nl;
   (if Js.truthy_string (notes request)
    then tpl ["## Notes"; Js.nl; notes request; Js.nl] else ""); Js.nl;
   "## Weather Data"; Js.nl;
   Js.nl;
   "| Date | Temp Max | Temp Min | Temp Mean | Feels Like Max | Feels Like Min | Precipitation | Rain | Weather | Wind Speed | Wind Dir |"; Js.nl;
   "|------|----------|----------|-----------|----------------|----------------|---------------|------|---------|------------|----------|"; Js.nl;
   Js.join Js.nl (map markdown_row (weather_data request)); Js.nl;
   Js.nl;
   "## Statistics"; Js.nl;
   Js.nl].

Definition markdown_statistics (request : WeatherRequest) : list string :=
  let data := weather_data request in
  ["- **Average Max Temperature:** ";
     fixed1 (reduce_sum temperature_max data / length_number data); "°C"; Js.nl;
   "- **Average Min Temperature:** ";
     fixed1 (reduce_sum temperature_min data / length_number data); "°C"; Js.nl;
   "- **Total Precipitation:** "; fixed1 (reduce_sum precipitation data); "mm"; Js.nl;
   "- **Total Rain:** "; fixed1 (reduce_sum rain data); "mm"; Js.nl;
   "- **Average Wind Speed:** ";
     fixed1 (reduce_sum wind_speed_max data / length_number data); "km/h"; Js.nl].

(** [now] is the text of [new Date().toLocaleString()] at the time of the
    export. *)
Definition markdown_foot (now : string) (request : WeatherRequest) : list string :=
  [Js.nl;
   "---"; Js.nl;
   "*Generated on "; now; "*"; Js.nl;
   "*Request ID: "; num (id request); "*"; Js.nl].

Definition markdown_document (now : string) (request : WeatherRequest) : string :=
  tpl (markdown_head request ++ markdown_statistics request ++ markdown_foot now request).

Definition exportAsMarkdown (now : string) (request : WeatherRequest) : Download :=
  downloadFile (markdown_document now request) (export_filename request "md") "text/markdown".

End WithPlatform.

(** ** Sample records *)

Definition day1 : WeatherDataItem :=
  {| date := "2024-01-01"; temperature_max := 20; temperature_min := 10;
     temperature_mean := Some 15%float; feels_like_max := 19; feels_like_min := 9;
     precipitation := 0; rain := 0; weather_code := 1;
     weather_description := "Mainly clear"; wind_speed_max := 5; wind_direction := 180 |}.

Definition day2 : WeatherDataItem :=
  {| date := "2024-01-02"; temperature_max := 22; temperature_min := 12;
     temperature_mean := None; feels_like_max := 21; feels_like_min := 11;
     precipitation := 2; rain := 2; weather_code := 61;
     weather_description := "Slight rain"; wind_speed_max := 7; wind_direction := 90 |}.

Definition sample_request (data : list WeatherDataItem) (notes : string) : WeatherRequest :=
  {| id := 7; location_name := "Manila"; country := "Philippines";
     latitude := 14; longitude := 121; timezone := "Asia/Manila";
     start_date := "2024-01-01"; end_date := "2024-01-02";
     weather_data := data; notes := notes;
     created_at := "2024-01-03T00:00:00Z"; updated_at := "2024-01-03T00:00:00Z" |}.

(** A stored request without any day of data, and one with the two days. *)
Definition empty_request : WeatherRequest := sample_request [] "".

Definition two_day_request : WeatherRequest := sample_request [day1; day2] "".

End ExportUtils.

(* ===================================================================== *)
(** * The API client (class [WeatherAPIClient])                           *)
(* ===================================================================== *)

Module ApiClient.

(** ** Errors, promises, requests and responses *)

(** A thrown value: its [name] ("Error", "TypeError", "SyntaxError") and its
    [message]. *)
Inductive Exn := JsError (name message : string).

(** [new Error(message)]. *)
Definition Error (message : string) : Exn := JsError "Error" message.

(** A settled promise. *)
Inductive Settled (A : Type) :=
| Fulfilled (a : A)
| Rejected (e : Exn).
Arguments Fulfilled {A} a.
Arguments Rejected {A} e.

(** The arguments of one [fetch(url, init)] call; [method = None] is the
    default, GET. *)
Record Request := {
  url : string;
  method : option string;
  headers : list (string * string);
  body : option string
}.

Record SignupPayload := {
  signup_username : string;
  signup_password : string;
  signup_first_name : string;
  signup_last_name : string
}.

Record LoginPayload := {
  login_username : string;
  login_password : string
}.

(** The fields of a create or update payload; all of them are optional in
    [UpdateWeatherRequestPayload]. *)
Record UpdateWeatherRequestPayload := {
  upd_location_name : option string;
  upd_start_date : option string;
  upd_end_date : option string;
  upd_notes : option string;
  upd_latitude : option float;
  upd_longitude : option float;
  upd_country : option string;
  upd_timezone : option string
}.

Record CreateWeatherRequestPayload := {
  new_location_name : string;
  new_start_date : string;
  new_end_date : string;
  new_notes : option string;
  new_latitude : option float;
  new_longitude : option float;
  new_country : option string;
  new_timezone : option string
}.

(** ** The client and its environment *)

(** The two private fields of a [WeatherAPIClient]. *)
Record Client := {
  baseUrl : string;
  token : option string
}.

(** The client, the browser's [localStorage] ([None] where [window] is
    undefined) and the requests sent so far, oldest first. *)
Record World := {
  this : Client;
  localStorage : option (gmap string string);
  sent : list Request
}.

Definition set_token (t : option string) (w : World) : World :=
  {| this := {| baseUrl := baseUrl (this w); token := t |};
     localStorage := localStorage w;
     sent := sent w |}.

Definition set_storage (st : option (gmap string string)) (w : World) : World :=
  {| this := this w; localStorage := st; sent := sent w |}.

Definition log_request (req : Request) (w : World) : World :=
  {| this := this w; localStorage := localStorage w; sent := sent w ++ [req] |}.

(** An [async] computation: it ends fulfilled or rejected, and the effects it
    had before a rejection stay. *)
Definition Async (A : Type) : Type := World -> Settled A * World.

Definition ret {A} (a : A) : Async A := fun w => (Fulfilled a, w).

Definition throw {A} (e : Exn) : Async A := fun w => (Rejected e, w).

Definition bind {A B} (c : Async A) (k : A -> Async B) : Async B :=
  fun w =>
    match c w with
    | (Fulfilled a, w') => k a w'
    | (Rejected e, w') => (Rejected e, w')
    end.

Notation "x <- c ;; k" := (bind c (fun x => k))
  (at level 100, c at next level, right associativity).

(** A promise that is already settled, awaited. *)
Definition await {A} (p : Settled A) : Async A := fun w => (p, w).

Definition get_this : Async Client := fun w => (Fulfilled (this w), w).

(** [Promise.all([p, q])] on two [async] calls: both calls are started, in
    order, whatever the other one does; the result is fulfilled when both
    are, and else rejected with the reason of the leg that rejected first
    ([second_first] tells that leg [q] settles before leg [p]). *)
Definition Promise_all {A B} (second_first : bool) (p : Async A) (q : Async B)
  : Async (A * B) :=
  fun w =>
    let (rp, w1) := p w in
    let (rq, w2) := q w1 in
    (match rp, rq with
     | Fulfilled a, Fulfilled b => Fulfilled (a, b)
     | Rejected e, Fulfilled _ => Rejected e
     | Fulfilled _, Rejected e => Rejected e
     | Rejected ep, Rejected eq => Rejected (if second_first then eq else ep)
     end, w2).

(** ** Session store *)

Definition new_client (url : string) (storage : option (gmap string string)) : World :=
  {| this := {| baseUrl := url;
                token := match storage with
                         | Some st => st !! "auth_token"
                         | None => None
                         end |};
     localStorage := storage;
     sent := [] |}.

(** Truthiness of a [string | null]. *)
Definition truthy_nullable (t : option string) : bool :=
  match t with
  | Some s => Js.truthy_string s
  | None => false
  end.

Definition setToken (t : option string) (w : World) : World :=
  let w := set_token t w in
  match localStorage w with
  | Some st =>
      match t with
      | Some s =>
          if Js.truthy_string s then set_storage (Some (<["auth_token" := s]> st)) w
          else set_storage (Some (delete "auth_token" st)) w
      | None => set_storage (Some (delete "auth_token" st)) w
      end
  | None => w
  end.

Definition getToken (w : World) : option string := token (this w).

Definition isAuthenticated (w : World) : bool :=
  match token (this w) with
  | Some _ => true
  | None => false
  end.

Definition getAuthHeaders (c : Client) : list (string * string) :=
  let headers := [("Content-Type", "application/json")] in
  match token c with
  | Some s =>
      if Js.truthy_string s then headers ++ [("Authorization", "Bearer " +:+ s)]
      else headers
  | None => headers
  end.

(** ** The environment of the client *)

(** A [Response]: its status and the outcome of [response.json()]. *)
Record Response (Json : Type) := {
  status : Z;
  json : Settled Json
}.
Arguments status {Json} _.
Arguments json {Json} _.

(** [response.ok]: the status is in the range 200 to 299. *)
Definition ok {Json} (response : Response Json) : bool :=
  (200 <=? status response)%Z && (status response <=? 299)%Z.

(** What the client runs on.
    - [Json] is a parsed JSON body.  The client hands bodies to its callers
      as they are and reads three properties from them, at the types the
      interfaces [ApiError], [AuthResponse] and the forecast result declare:
      [message_of] is [error.message] (absent or a string), [token_of] is
      [data.token], [forecast_of] is [forecastData.forecast].
    - [finite_toString], [encodeURIComponent] and [JSON_stringify] are the
      platform's.
    - [network] is the outcome of a [fetch], given the requests sent before
      it; a rejection is a transport failure.
    - [forecast_settles_first] tells whether, in [getWeatherByCoordinates],
      the forecast leg settles before the current-weather leg. *)
Class Environment := {
  Json : Type;
  message_of : Json -> option string;
  token_of : Json -> string;
  forecast_of : Json -> Json;
  finite_toString : float -> string;
  encodeURIComponent : string -> string;
  JSON_stringify : forall A : Type, A -> string;
  network : list Request -> Request -> Settled (Response Json);
  forecast_settles_first : bool
}.

(** ** The network methods *)

Section Methods.

Context {env : Environment}.

Let num (x : float) : string := Js.Number_toString finite_toString x.
Let tpl := ExportUtils.tpl.

Definition fetch (url : string) (method : option string)
    (headers : list (string * string)) (body : option string) : Async (Response Json) :=
  fun w =>
    let req := {| url := url; method := method; headers := headers; body := body |} in
    (network (sent w) req, log_request req w).

Definition handleResponse (response : Response Json) : Async Json :=
  if negb (ok response) then
    error <- await (json response) ;;
    throw (Error (Js.or_else (message_of error) "An error occurred"))
  else await (json response).

Definition searchLocation (query : string) : Async Json :=
  self <- get_this ;;
  response <- fetch (tpl [baseUrl self; "/search?q="; encodeURIComponent query])
                None [] None ;;
  handleResponse response.

Definition getCurrentWeather (lat lon : float) : Async Json :=
  self <- get_this ;;
  response <- fetch (tpl [baseUrl self; "/current?lat="; num lat; "&lon="; num lon])
                None [] None ;;
  handleResponse response.

Definition getForecast (lat lon : float) (days : option float) : Async Json :=
  let days := default 7%float days in
  self <- get_this ;;
  response <- fetch (tpl [baseUrl self; "/forecast?lat="; num lat; "&lon="; num lon;
                          "&days="; num days])
                None [] None ;;
  handleResponse response.

Definition getHourlyForecast (lat lon : float) (hours : option float) : Async Json :=
  let hours := default 24%float hours in
  self <- get_this ;;
  response <- fetch (tpl [baseUrl self; "/hourly?lat="; num lat; "&lon="; num lon;
                          "&hours="; num hours])
                None [] None ;;
  handleResponse response.

Definition getCompleteWeather (query : string) (days : option float) : Async Json :=
  let days := default 7%float days in
  self <- get_this ;;
  response <- fetch (tpl [baseUrl self; "/complete?q="; encodeURIComponent query;
                          "&days="; num days])
                None [] None ;;
  handleResponse response.

(** The object [{ current, forecast }] that [getWeatherByCoordinates]
    builds. *)
Record CoordinatesWeather := {
  current : Json;
  forecast : Json
}.

Definition getWeatherByCoordinates (lat lon : float) (days : option float)
  : Async CoordinatesWeather :=
  let days := default 7%float days in
  both <- Promise_all forecast_settles_first
            (getCurrentWeather lat lon)
            (getForecast lat lon (Some days)) ;;
  let (current, forecastData) := both : Json * Json in
  ret {| current := current; forecast := forecast_of forecastData |}.

Definition signup (payload : SignupPayload) : Async Json :=
  self <- get_this ;;
  response <- fetch (tpl [baseUrl self; "/auth/signup"])
                (Some "POST") [("Content-Type", "application/json")]
                (Some (JSON_stringify _ payload)) ;;
  data <- handleResponse response ;;
  fun w => (Fulfilled data, setToken (Some (token_of data)) w).

Definition login (payload : LoginPayload) : Async Json :=
  self <- get_this ;;
  response <- fetch (tpl [baseUrl self; "/auth/login"])
                (Some "POST") [("Content-Type", "application/json")]
                (Some (JSON_stringify _ payload)) ;;
  data <- handleResponse response ;;
  fun w => (Fulfilled data, setToken (Some (token_of data)) w).

Definition logout : Async unit :=
  self <- get_this ;;
  _ <- (if truthy_nullable (token self)
        then (_ <- fetch (tpl [baseUrl self; "/auth/logout"])
                     (Some "POST") (getAuthHeaders self) None ;;
              ret tt)
        else ret tt) ;;
  fun w => (Fulfilled tt, setToken None w).

Definition getCurrentUser : Async Json :=
  self <- get_this ;;
  response <- fetch (tpl [baseUrl self; "/auth/me"]) None (getAuthHeaders self) None ;;
  handleResponse response.

Definition validateLocation (locationName : string) : Async Json :=
  self <- get_this ;;
  response <- fetch (tpl [baseUrl self; "/validate-location?location_name=";
                          encodeURIComponent locationName])
                None [] None ;;
  handleResponse response.

Definition validateDateRange (startDate endDate : string) : Async Json :=
  self <- get_this ;;
  response <- fetch (tpl [baseUrl self; "/validate-dates?start_date="; startDate;
                          "&end_date="; endDate])
                None [] None ;;
  handleResponse response.

Definition createWeatherRequest (payload : CreateWeatherRequestPayload) : Async Json :=
  self <- get_this ;;
  response <- fetch (tpl [baseUrl self; "/weather-requests"])
                (Some "POST") (getAuthHeaders self)
                (Some (JSON_stringify _ payload)) ;;
  handleResponse response.

Definition getWeatherRequests (location : option string) (limit offset : option float)
  : Async Json :=
  let limit := default 50%float limit in
  let offset := default 0%float offset in
  self <- get_this ;;
  let url := tpl [baseUrl self; "/weather-requests?limit="; num limit;
                  "&offset="; num offset] in
  let url := if truthy_nullable location
             then url +:+ tpl ["&location="; encodeURIComponent (default "" location)]
             else url in
  response <- fetch url None (getAuthHeaders self) None ;;
  handleResponse response.

Definition getWeatherRequestById (id : float) : Async Json :=
  self <- get_this ;;
  response <- fetch (tpl [baseUrl self; "/weather-requests/"; num id])
                None (getAuthHeaders self) None ;;
  handleResponse response.

Definition updateWeatherRequest (id : float) (payload : UpdateWeatherRequestPayload)
  : Async Json :=
  self <- get_this ;;
  response <- fetch (tpl [baseUrl self; "/weather-requests/"; num id])
                (Some "PUT") (getAuthHeaders self)
                (Some (JSON_stringify _ payload)) ;;
  handleResponse response.

Definition deleteWeatherRequest (id : float) : Async Json :=
  self <- get_this ;;
  response <- fetch (tpl [baseUrl self; "/weather-requests/"; num id])
                (Some "DELETE") (getAuthHeaders self) None ;;
  handleResponse response.

(** ** Every method that talks to the network, with its arguments *)

Inductive ApiCall : Type -> Type :=
| SearchLocation (query : string) : ApiCall Json
| GetCurrentWeather (lat lon : float) : ApiCall Json
| GetForecast (lat lon : float) (days : option float) : ApiCall Json
| GetHourlyForecast (lat lon : float) (hours : option float) : ApiCall Json
| GetCompleteWeather (query : string) (days : option float) : ApiCall Json
| GetWeatherByCoordinates (lat lon : float) (days : option float)
    : ApiCall CoordinatesWeather
| Signup (payload : SignupPayload) : ApiCall Json
| Login (payload : LoginPayload) : ApiCall Json
| Logout : ApiCall unit
| GetCurrentUser : ApiCall Json
| ValidateLocation (locationName : string) : ApiCall Json
| ValidateDateRange (startDate endDate : string) : ApiCall Json
| CreateWeatherRequest (payload : CreateWeatherRequestPayload) : ApiCall Json
| GetWeatherRequests (location : option string) (limit offset : option float)
    : ApiCall Json
| GetWeatherRequestById (id : float) : ApiCall Json
| UpdateWeatherRequest (id : float) (payload : UpdateWeatherRequestPayload)
    : ApiCall Json
| DeleteWeatherRequest (id : float) : ApiCall Json.

Definition call {A} (c : ApiCall A) : Async A :=
  match c in ApiCall T return Async T with
  | SearchLocation query => searchLocation query
  | GetCurrentWeather lat lon => getCurrentWeather lat lon
  | GetForecast lat lon days => getForecast lat lon days
  | GetHourlyForecast lat lon hours => getHourlyForecast lat lon hours
  | GetCompleteWeather query days => getCompleteWeather query days
  | GetWeatherByCoordinates lat lon days => getWeatherByCoordinates lat lon days
  | Signup payload => signup payload
  | Login payload => login payload
  | Logout => logout
  | GetCurrentUser => getCurrentUser
  | ValidateLocation locationName => validateLocation locationName
  | ValidateDateRange startDate endDate => validateDateRange startDate endDate
  | CreateWeatherRequest payload => createWeatherRequest payload
  | GetWeatherRequests location limit offset => getWeatherRequests location limit offset
  | GetWeatherRequestById id => getWeatherRequestById id
  | UpdateWeatherRequest id payload => updateWeatherRequest id payload
  | DeleteWeatherRequest id => deleteWeatherRequest id
  end.

Definition is_logout {A} (c : ApiCall A) : bool :=
  match c with
  | Logout => true
  | _ => false
  end.

End Methods.

(** The request that [logout] sends when there is a token: a POST to
    [/auth/logout] with the headers of [getAuthHeaders]. *)
Definition logout_request (w : World) : Request :=
  {| url := ExportUtils.tpl [baseUrl (this w); "/auth/logout"];
     method := Some "POST";
     headers := getAuthHeaders (this w);
     body := None |}.

(** The requests of [signup] and [login]: the credentials, posted without an
    [Authorization] header. *)
Definition signup_request `{Environment} (payload : SignupPayload) (w : World) : Request :=
  {| url := ExportUtils.tpl [baseUrl (this w); "/auth/signup"];
     method := Some "POST";
     headers := [("Content-Type", "application/json")];
     body := Some (JSON_stringify _ payload) |}.

Definition login_request `{Environment} (payload : LoginPayload) (w : World) : Request :=
  {| url := ExportUtils.tpl [baseUrl (this w); "/auth/login"];
     method := Some "POST";
     headers := [("Content-Type", "application/json")];
     body := Some (JSON_stringify _ payload) |}.

(** The value of the [auth_token] key, where there is a [localStorage]. *)
Definition stored_token (w : World) : option string :=
  match localStorage w with
  | Some st => st !! "auth_token"
  | None => None
  end.

(** The outcome of [handleResponse] on a response. *)
Definition handled `{Environment} (response : Response Json) : Settled Json :=
  if ok response then json response
  else match json response with
       | Fulfilled error =>
           Rejected (Error (Js.or_else (message_of error) "An error occurred"))
       | Rejected e => Rejected e
       end.

(** A response whose body [handleResponse] returns: a 2xx response with a
    body that parses. *)
Definition accepted `{Environment} (response : Response Json) : Prop :=
  ok response = true /\ exists data : Json, json response = Fulfilled data.

(** ** The requests of the methods *)

(** The arguments of the first [fetch] of each method, as one request:
    the only one of every method but [getWeatherByCoordinates], whose
    first is the request of its [getCurrentWeather] leg.  ([logout] sends
    its request only while there is a token.) *)
Definition request_of `{Environment} {A} (c : ApiCall A) (w : World) : Request :=
  let self := this w in
  let num := Js.Number_toString finite_toString in
  let tpl := ExportUtils.tpl in
  match c with
  | SearchLocation query =>
      {| url := tpl [baseUrl self; "/search?q="; encodeURIComponent query];
         method := None; headers := []; body := None |}
  | GetCurrentWeather lat lon | GetWeatherByCoordinates lat lon _ =>
      {| url := tpl [baseUrl self; "/current?lat="; num lat; "&lon="; num lon];
         method := None; headers := []; body := None |}
  | GetForecast lat lon days =>
      {| url := tpl [baseUrl self; "/forecast?lat="; num lat; "&lon="; num lon;
                     "&days="; num (default 7%float days)];
         method := None; headers := []; body := None |}
  | GetHourlyForecast lat lon hours =>
      {| url := tpl [baseUrl self; "/hourly?lat="; num lat; "&lon="; num lon;
                     "&hours="; num (default 24%float hours)];
         method := None; headers := []; body := None |}
  | GetCompleteWeather query days =>
      {| url := tpl [baseUrl self; "/complete?q="; encodeURIComponent query;
                     "&days="; num (default 7%float days)];
         method := None; headers := []; body := None |}
  | Signup payload => signup_request payload w
  | Login payload => login_request payload w
  | Logout => logout_request w
  | GetCurrentUser =>
      {| url := tpl [baseUrl self; "/auth/me"];
         method := None; headers := getAuthHeaders self; body := None |}
  | ValidateLocation locationName =>
      {| url := tpl [baseUrl self; "/validate-location?location_name=";
                     encodeURIComponent locationName];
         method := None; headers := []; body := None |}
  | ValidateDateRange startDate endDate =>
      {| url := tpl [baseUrl self; "/validate-dates?start_date="; startDate;
                     "&end_date="; endDate];
         method := None; headers := []; body := None |}
  | CreateWeatherRequest payload =>
      {| url := tpl [baseUrl self; "/weather-requests"];
         method := Some "POST"; headers := getAuthHeaders self;
         body := Some (JSON_stringify _ payload) |}
  | GetWeatherRequests location limit offset =>
      let url := tpl [baseUrl self; "/weather-requests?limit=";
                      num (default 50%float limit);
                      "&offset="; num (default 0%float offset)] in
      {| url := if truthy_nullable location
                then url +:+ tpl ["&location="; encodeURIComponent (default "" location)]
                else url;
         method := None; headers := getAuthHeaders self; body := None |}
  | GetWeatherRequestById id =>
      {| url := tpl [baseUrl self; "/weather-requests/"; num id];
         method := None; headers := getAuthHeaders self; body := None |}
  | UpdateWeatherRequest id payload =>
      {| url := tpl [baseUrl self; "/weather-requests/"; num id];
         method := Some "PUT"; headers := getAuthHeaders self;
         body := Some (JSON_stringify _ payload) |}
  | DeleteWeatherRequest id =>
      {| url := tpl [baseUrl self; "/weather-requests/"; num id];
         method := Some "DELETE"; headers := getAuthHeaders self; body := None |}
  end.

(** The second [fetch] of [getWeatherByCoordinates], that of its
    [getForecast] leg; no other method has a second one. *)
Definition second_request `{Environment} {A} (c : ApiCall A) (w : World)
  : option Request :=
  match c with
  | GetWeatherByCoordinates lat lon days =>
      Some {| url := ExportUtils.tpl
                       [baseUrl (this w); "/forecast?lat=";
                        Js.Number_toString finite_toString lat; "&lon=";
                        Js.Number_toString finite_toString lon; "&days=";
                        Js.Number_toString finite_toString (default 7%float days)];
              method := None; headers := []; body := None |}
  | _ => None
  end.

(** ** A concrete server side, to run the client on *)

Inductive SampleJson :=
| ErrorBody (error : string) (message : option string)
| AuthBody (token : string) (username : string)
| WeatherBody (description : string)
| ForecastBody (forecast : list string) (timezone : string)
| ForecastList (days : list string).

Definition sample_message_of (v : SampleJson) : option string :=
  match v with
  | ErrorBody _ m => m
  | _ => None
  end.

Definition sample_token_of (v : SampleJson) : string :=
  match v with
  | AuthBody t _ => t
  | _ => ""
  end.

Definition sample_forecast_of (v : SampleJson) : SampleJson :=
  match v with
  | ForecastBody days _ => ForecastList days
  | _ => v
  end.

Definition sample_stringify (A : Type) (_ : A) : string := "{}".

(** A server that gives every request the same outcome. *)
Definition always (r : Settled (Response SampleJson))
  : list Request -> Request -> Settled (Response SampleJson) :=
  fun _ _ => r.

(** The sample environment over a given server. *)
Definition sample_env (net : list Request -> Request -> Settled (Response SampleJson))
    (forecast_first : bool) : Environment :=
  {| Json := SampleJson;
     message_of := sample_message_of;
     token_of := sample_token_of;
     forecast_of := sample_forecast_of;
     finite_toString := Js.integral_toString;
     encodeURIComponent := fun s => s;
     JSON_stringify := sample_stringify;
     network := net;
     forecast_settles_first := forecast_first |}.

(** A weather server whose endpoints named in [down] cannot be reached. *)
Definition weather_server (down : list string)
  : list Request -> Request -> Settled (Response SampleJson) :=
  fun _ req =>
    if existsb (fun part => Js.includes part (url req)) down
    then Rejected (JsError "TypeError" "Failed to fetch")
    else if Js.includes "/forecast?" (url req)
    then Fulfilled {| status := 200;
                      json := Fulfilled (ForecastBody ["Mon"; "Tue"] "Asia/Manila") |}
    else if Js.includes "/auth/" (url req)
    then Fulfilled {| status := 200; json := Fulfilled (AuthBody "tok-1" "ana") |}
    else Fulfilled {| status := 200; json := Fulfilled (WeatherBody "Clear sky") |}.

Definition sample_world (t : option string) (storage : option (gmap string string)) : World :=
  {| this := {| baseUrl := "http://localhost:8000/api/weather"; token := t |};
     localStorage := storage;
     sent := [] |}.

Definition signed_in : World :=
  sample_world (Some "abc123") (Some {["auth_token" := "abc123"]}).

Definition ana_signup : SignupPayload :=
  {| signup_username := "ana"; signup_password := "s3cret";
     signup_first_name := "Ana"; signup_last_name := "Cruz" |}.

Definition ana_login : LoginPayload :=
  {| login_username := "ana"; login_password := "s3cret" |}.

(** A transport failure, as [fetch] reports it. *)
Definition failed_to_fetch : Exn := JsError "TypeError" "Failed to fetch".

(** A browser session without a token. *)
Definition signed_out : World := sample_world None (Some ∅).

Definition bad_request : Response SampleJson :=
  {| status := 400;
     json := Fulfilled (ErrorBody "bad_request" (Some "Invalid date range")) |}.

End ApiClient.

(* ===================================================================== *)
(** * The API client: which call does what                                *)
(* ===================================================================== *)

Module ApiCalls.

Import ApiClient.

Section Calls.

Context {env : Environment}.

(** The methods that pass [this.getAuthHeaders()] as the headers of their
    request. *)
Definition sends_auth_headers {A} (c : ApiCall A) : bool :=
  match c with
  | Logout | GetCurrentUser | CreateWeatherRequest _ | GetWeatherRequests _ _ _
  | GetWeatherRequestById _ | UpdateWeatherRequest _ _ | DeleteWeatherRequest _ => true
  | _ => false
  end.

(** The methods that call [this.setToken]. *)
Definition calls_setToken {A} (c : ApiCall A) : bool :=
  match c with
  | Signup _ | Login _ | Logout => true
  | _ => false
  end.

(** The number of [fetch] calls of a method. *)
Definition request_count {A} (c : ApiCall A) (w : World) : nat :=
  match c with
  | GetWeatherByCoordinates _ _ _ => 2
  | Logout => if truthy_nullable (getToken w) then 1 else 0
  | _ => 1
  end.

(** The requests that a call adds to those sent before it. *)
Definition new_requests {A} (c : ApiCall A) (w : World) : list Request :=
  skipn (length (sent w)) (sent (snd (call c w))).

(** What a method returns when the responses to its requests are 2xx
    responses whose bodies parse, [data] being the body of the response to
    its first request and [data2] that of the response to its second. *)
Definition from_bodies {A} (c : ApiCall A) (data data2 : Json) : A :=
  match c in ApiCall T return T with
  | GetWeatherByCoordinates _ _ _ => {| current := data; forecast := forecast_of data2 |}
  | Logout => tt
  | SearchLocation _ => data
  | GetCurrentWeather _ _ => data
  | GetForecast _ _ _ => data
  | GetHourlyForecast _ _ _ => data
  | GetCompleteWeather _ _ => data
  | Signup _ => data
  | Login _ => data
  | GetCurrentUser => data
  | ValidateLocation _ => data
  | ValidateDateRange _ _ => data
  | CreateWeatherRequest _ => data
  | GetWeatherRequests _ _ _ => data
  | GetWeatherRequestById _ => data
  | UpdateWeatherRequest _ _ => data
  | DeleteWeatherRequest _ => data
  end.

(** The headers that a method gives to [fetch]. *)
Definition headers_of {A} (c : ApiCall A) (w : World) : list (string * string) :=
  if sends_auth_headers c then getAuthHeaders (this w)
  else if calls_setToken c then [("Content-Type", "application/json")]
  else [].

(** A header named [Authorization] is among the headers. *)
Definition has_authorization (hs : list (string * string)) : bool :=
  existsb (fun h => String.eqb (fst h) "Authorization") hs.

End Calls.

End ApiCalls.

(* ===================================================================== *)
(** * lib/geolocation.ts: the position and permission adapters            *)
(* ===================================================================== *)

Module GeolocationAdapter.

Import ApiClient.

Record GeolocationCoordinates := {
  latitude : float;
  longitude : float;
  accuracy : float
}.

Record GeolocationPosition := {
  coords : GeolocationCoordinates;
  timestamp : float
}.

(** One call that the platform makes back: the success callback with a
    position, or the error callback with an error of some [code]. *)
Inductive PositionCallback :=
| OnSuccess (position : GeolocationPosition)
| OnError (code : Z).

(** The constants of a [GeolocationPositionError]. *)
Definition PERMISSION_DENIED : Z := 1.
Definition POSITION_UNAVAILABLE : Z := 2.
Definition TIMEOUT : Z := 3.

Record PositionOptions := {
  enableHighAccuracy : bool;
  timeout : Z;
  maximumAge : Z
}.

(** [navigator]: [geolocation] is there or not; when it is, it answers a
    [getCurrentPosition] call with given options by the callbacks it makes, in
    order (none at all when it never calls back).  [permissions] likewise: its
    [query], by name, ends with a permission state or fails. *)
Record Navigator := {
  geolocation : option (PositionOptions -> list PositionCallback);
  permissions : option (string -> Settled string)
}.

(** The message built in the error callback. *)
Definition position_error_message (code : Z) : string :=
  let message := "Unable to access your location. " in
  if (code =? PERMISSION_DENIED)%Z
  then message +:+ "Please enable location permissions in your browser settings."
  else if (code =? POSITION_UNAVAILABLE)%Z
  then message +:+ "Location information is unavailable."
  else if (code =? TIMEOUT)%Z
  then message +:+ "Location request timed out."
  else message +:+ "An unknown error occurred.".

(** What one callback does to the promise. *)
Definition settle (cb : PositionCallback) : Settled GeolocationPosition :=
  match cb with
  | OnSuccess position => Fulfilled position
  | OnError code => Rejected (Error (position_error_message code))
  end.

(** The promise of [getCurrentPosition]: [None] while it is pending.  A
    promise keeps its first settlement, so of the platform's callbacks only
    the first counts. *)
Definition getCurrentPosition (navigator : Navigator)
  : option (Settled GeolocationPosition) :=
  match geolocation navigator with
  | None => Some (Rejected (Error "Geolocation is not supported by your browser"))
  | Some api =>
      head (map settle (api {| enableHighAccuracy := true;
                               timeout := 10000;
                               maximumAge := 0 |}))
  end.

Definition isGeolocationSupported (navigator : Navigator) : bool :=
  match geolocation navigator with
  | Some _ => true
  | None => false
  end.

(** [checkGeolocationPermission]: the state or [null], and what it wrote
    with [console.error]. *)
Definition checkGeolocationPermission (navigator : Navigator)
  : option string * list (string * Exn) :=
  match permissions navigator with
  | None => (None, [])
  | Some query =>
      match query "geolocation" with
      | Fulfilled state => (Some state, [])
      | Rejected error => (None, [("Error checking geolocation permission:", error)])
      end
  end.

(** The four kinds of failure that the error callback tells apart. *)
Inductive ErrorKind := Denied | Unavailable | TimedOut | Unknown.

Definition error_kind (code : Z) : ErrorKind :=
  if (code =? PERMISSION_DENIED)%Z then Denied
  else if (code =? POSITION_UNAVAILABLE)%Z then Unavailable
  else if (code =? TIMEOUT)%Z then TimedOut
  else Unknown.

(** A platform that makes the given callbacks, for any options. *)
Definition navigator_calling (calls : list PositionCallback) : Navigator :=
  {| geolocation := Some (fun _ => calls); permissions := None |}.

Definition manila : GeolocationPosition :=
  {| coords := {| latitude := 14.5995; longitude := 120.9842; accuracy := 25 |};
     timestamp := 1704240000000 |}.

End GeolocationAdapter.

(* ===================================================================== *)
(** * The pages and components that call the client                       *)
(* ===================================================================== *)

(** A handler is run from the state it starts in to the state it ends in;
    [try], [catch] and [finally] are the cases of the awaited outcome. *)

Module Pages.

Import ApiClient.

(** [err.message]. *)
Definition exn_message (e : Exn) : string :=
  match e with
  | JsError _ message => message
  end.

(** ** The weather data page: [checkAuth] on mount *)

Module DataPage.

Record State := {
  isAuthenticated : bool;
  isCheckingAuth : bool;
  pushed : list string
}.

Definition initial : State :=
  {| isAuthenticated := false; isCheckingAuth := true; pushed := [] |}.

Definition checkAuth `{Environment} (ui : State) (w : World) : State * World :=
  if negb (ApiClient.isAuthenticated w) then
    ({| isAuthenticated := isAuthenticated ui;
        isCheckingAuth := isCheckingAuth ui;
        pushed := pushed ui ++ ["/auth"] |}, w)
  else
    match getCurrentUser w with
    | (Fulfilled _, w') =>
        ({| isAuthenticated := true;
            isCheckingAuth := false;
            pushed := pushed ui |}, w')
    | (Rejected _, w') =>
        ({| isAuthenticated := isAuthenticated ui;
            isCheckingAuth := false;
            pushed := pushed ui ++ ["/auth"] |}, setToken None w')
    end.

End DataPage.

(** ** The landing page: [checkAuth] on mount *)

Module Landing.

Definition checkAuth `{Environment} (pushed : list string) (w : World)
  : list string * World :=
  if ApiClient.isAuthenticated w then
    match getCurrentUser w with
    | (Fulfilled _, w') => (pushed ++ ["/weather-data"], w')
    | (Rejected _, w') => (pushed, setToken None w')
    end
  else (pushed, w).

End Landing.

(** ** The navigation bar: the Logout button *)

Module Navbar.

(** The click handler; a rejection of [logout] is left unhandled. *)
Definition onLogoutClick `{Environment} (pushed : list string) (w : World)
  : Settled unit * list string * World :=
  match logout w with
  | (Fulfilled _, w') => (Fulfilled tt, pushed ++ ["/"], w')
  | (Rejected e, w') => (Rejected e, pushed, w')
  end.

End Navbar.

(** ** The account dialog: [handleSignup] and [handleLogin] *)

Module AuthDialog.

Record State := {
  loading : bool;
  error : string
}.

Section Handlers.

Context {env : Environment}.

(** [response.user]. *)
Variable user_of : Json -> Json.

(** The handlers give the state they end in and the users they passed to
    [onSuccess]; [has_onSuccess] tells whether the property was given.  The
    callback is taken to return normally. *)
Definition handleSignup (has_onSuccess : bool) (signupData : SignupPayload)
    (ui : State) (w : World) : State * list Json * World :=
  match signup signupData w with
  | (Fulfilled response, w') =>
      ({| loading := false; error := "" |},
       if has_onSuccess then [user_of response] else [], w')
  | (Rejected err, w') =>
      ({| loading := false;
          error := Js.or_else (Some (exn_message err)) "Signup failed. Please try again." |},
       [], w')
  end.

Definition handleLogin (has_onSuccess : bool) (loginData : LoginPayload)
    (ui : State) (w : World) : State * list Json * World :=
  match login loginData w with
  | (Fulfilled response, w') =>
      ({| loading := false; error := "" |},
       if has_onSuccess then [user_of response] else [], w')
  | (Rejected err, w') =>
      ({| loading := false;
          error := Js.or_else (Some (exn_message err))
                     "Login failed. Please check your credentials." |},
       [], w')
  end.

End Handlers.

End AuthDialog.

(** ** The weather page: [fetchWeather], [handleSearch], [handleGeolocation] *)

Module WeatherHome.

Import GeolocationAdapter.

Section Handlers.

Context {env : Environment}.

(** [data.location], [data.current] and [data.current.timezone] of a body,
    and the truthiness of a body value (for [data.forecast || []]). *)
Variable location_of : Json -> Json.
Variable current_of : Json -> Json.
Variable timezone_of : Json -> string.
Variable truthy_json : Json -> bool.

(** The [location] state: a location of the server, or the object that
    [handleGeolocation] builds. *)
Inductive LocationView :=
| FromServer (location : Json)
| DeviceLocation (name country : string) (latitude longitude : float) (timezone : string).

(** The [forecast] state: a value of the server, or [[]]. *)
Inductive ForecastView :=
| ForecastOf (days : Json)
| NoDays.

Definition or_no_days (days : Json) : ForecastView :=
  if truthy_json days then ForecastOf days else NoDays.

Record State := {
  location : option LocationView;
  currentWeather : option Json;
  forecast : ForecastView;
  loading : bool;
  error : string;
  useGeolocation : bool;
  console_errors : list (string * Exn)
}.

Definition fetchWeather (searchLocation : string) (ui : State) (w : World)
  : State * World :=
  match getCompleteWeather searchLocation (Some 7%float) w with
  | (Fulfilled data, w') =>
      ({| location := Some (FromServer (location_of data));
          currentWeather := Some (current_of data);
          forecast := or_no_days (forecast_of data);
          loading := false;
          error := "";
          useGeolocation := useGeolocation ui;
          console_errors := console_errors ui |}, w')
  | (Rejected err, w') =>
      ({| location := location ui;
          currentWeather := currentWeather ui;
          forecast := forecast ui;
          loading := false;
          error := Js.or_else (Some (exn_message err))
                     "Unable to fetch weather. Please try again.";
          useGeolocation := useGeolocation ui;
          console_errors := console_errors ui ++ [("Weather fetch error:", err)] |}, w')
  end.

Definition handleSearch (searchLocation : string) (ui : State) (w : World)
  : State * World :=
  fetchWeather searchLocation
    {| location := location ui;
       currentWeather := currentWeather ui;
       forecast := forecast ui;
       loading := loading ui;
       error := error ui;
       useGeolocation := false;
       console_errors := console_errors ui |} w.

(** The [catch] and [finally] blocks of [handleGeolocation]. *)
Definition geolocation_failed (err : Exn) (ui : State) : State :=
  {| location := location ui;
     currentWeather := None;
     forecast := NoDays;
     loading := false;
     error := Js.or_else (Some (exn_message err))
                "Unable to fetch weather for your location";
     useGeolocation := false;
     console_errors := console_errors ui ++ [("Geolocation error:", err)] |}.

Definition handleGeolocation (navigator : Navigator) (ui : State) (w : World)
  : State * World :=
  match getCurrentPosition navigator with
  | None =>
      ({| location := location ui;
          currentWeather := currentWeather ui;
          forecast := forecast ui;
          loading := true;
          error := "";
          useGeolocation := true;
          console_errors := console_errors ui |}, w)
  | Some (Rejected err) => (geolocation_failed err ui, w)
  | Some (Fulfilled position) =>
      let latitude := GeolocationAdapter.latitude (coords position) in
      let longitude := GeolocationAdapter.longitude (coords position) in
      match getWeatherByCoordinates latitude longitude (Some 7%float) w with
      | (Fulfilled data, w') =>
          ({| location :=
                Some (DeviceLocation
                        (ExportUtils.tpl
                           ["Your Location (";
                            Geolocation.formatCoordinates finite_toString latitude longitude;
                            ")"])
                        "" latitude longitude (timezone_of (current data)));
              currentWeather := Some (current data);
              forecast := or_no_days (ApiClient.forecast data);
              loading := false;
              error := "";
              useGeolocation := false;
              console_errors := console_errors ui |}, w')
      | (Rejected err, w') => (geolocation_failed err ui, w')
      end
  end.

End Handlers.

End WeatherHome.

(** ** The list of stored requests: [handleDelete] *)

Module RequestsList.

Record WeatherRequestListItem := {
  id : float;
  location_name : string;
  country : string;
  start_date : string;
  end_date : string;
  notes : string;
  created_at : string;
  updated_at : string
}.

Record State := {
  requests : list WeatherRequestListItem;
  loading : bool;
  error : string;
  searchQuery : string;
  deleteId : option float;
  deleting : bool
}.

(** The truthy value of [deleteId], if it has one. *)
Definition id_to_delete (ui : State) : option float :=
  match deleteId ui with
  | Some n => if Js.truthy_number n then Some n else None
  | None => None
  end.

(** The handler gives the state it ends in and the number of calls of
    [onRefresh]; [has_onRefresh] tells whether the property was given.  The
    callback is taken to return normally. *)
Definition handleDelete `{Environment} (has_onRefresh : bool) (ui : State) (w : World)
  : State * nat * World :=
  match id_to_delete ui with
  | None => (ui, 0%nat, w)
  | Some n =>
      match deleteWeatherRequest n w with
      | (Fulfilled _, w') =>
          ({| requests := List.filter (fun r => negb (id r =? n)%float) (requests ui);
              loading := loading ui;
              error := error ui;
              searchQuery := searchQuery ui;
              deleteId := None;
              deleting := false |},
           if has_onRefresh then 1%nat else 0%nat, w')
      | (Rejected err, w') =>
          ({| requests := requests ui;
              loading := loading ui;
              error := Js.or_else (Some (exn_message err)) "Failed to delete request";
              searchQuery := searchQuery ui;
              deleteId := deleteId ui;
              deleting := false |}, 0%nat, w')
      end
  end.

Definition list_item (n : float) (place : string) : WeatherRequestListItem :=
  {| id := n; location_name := place; country := "Philippines";
     start_date := "2024-01-01"; end_date := "2024-01-02"; notes := "";
     created_at := "2024-01-03T00:00:00Z"; updated_at := "2024-01-03T00:00:00Z" |}.

Definition sample_list : State :=
  {| requests := [list_item 3 "Manila"; list_item 5 "Cebu"; list_item 3 "Manila"];
     loading := false; error := ""; searchQuery := "";
     deleteId := Some 3%float; deleting := false |}.

End RequestsList.

(** ** Sample servers and states for the pages *)

(** The answer to a request with a token that the server does not know. *)
Definition unauthorized : Response SampleJson :=
  {| status := 401;
     json := Fulfilled (ErrorBody "unauthorized" (Some "Invalid or expired token")) |}.

Definition deleted : Response SampleJson :=
  {| status := 200; json := Fulfilled (WeatherBody "Weather request deleted") |}.

(** [response.user] on the sample bodies: the user's name. *)
Definition sample_user_of (v : SampleJson) : SampleJson :=
  match v with
  | AuthBody _ username => WeatherBody username
  | _ => v
  end.

(** The weather page before any lookup. *)
Definition blank_home (env : Environment) : WeatherHome.State :=
  {| WeatherHome.location := None;
     WeatherHome.currentWeather := None;
     WeatherHome.forecast := WeatherHome.NoDays;
     WeatherHome.loading := false;
     WeatherHome.error := "";
     WeatherHome.useGeolocation := false;
     WeatherHome.console_errors := [] |}.

End Pages.

(* ===================================================================== *)
(** * lib/export-utils.ts: what escaped text and a day without a mean are *)
(* ===================================================================== *)

Module ExportChecks.

Import Model ExportUtils.

(** Text in which no [<], [>], double quote or apostrophe is left and every
    [&] starts one of the five entities. *)
Fixpoint well_escaped (s : string) : bool :=
  match s with
  | EmptyString => true
  | String a rest =>
      (if Ascii.eqb a "&" then
         String.prefix "amp;" rest || String.prefix "lt;" rest || String.prefix "gt;" rest
         || String.prefix "quot;" rest || String.prefix "apos;" rest
       else negb (Ascii.eqb a "<" || Ascii.eqb a ">" || Ascii.eqb a (ascii_of_nat 34)
                  || Ascii.eqb a "'"))
      && well_escaped rest
  end.

(** The same day with no [temperature_mean]. *)
Definition without_mean (day : WeatherDataItem) : WeatherDataItem :=
  {| date := date day;
     temperature_max := temperature_max day;
     temperature_min := temperature_min day;
     temperature_mean := None;
     feels_like_max := feels_like_max day;
     feels_like_min := feels_like_min day;
     precipitation := precipitation day;
     rain := rain day;
     weather_code := weather_code day;
     weather_description := weather_description day;
     wind_speed_max := wind_speed_max day;
     wind_direction := wind_direction day |}.

(** A day at freezing point, with a mean temperature of 0. *)
Definition freezing_day : WeatherDataItem :=
  {| date := "2024-01-05"; temperature_max := 3; temperature_min := (-3);
     temperature_mean := Some 0%float; feels_like_max := 1; feels_like_min := (-6);
     precipitation := 0; rain := 0; weather_code := 71;
     weather_description := "Slight snow"; wind_speed_max := 12; wind_direction := 0 |}.

End ExportChecks.

(* ===================================================================== *)
(** * Facts about strings and number rendering                            *)
(* ===================================================================== *)

Module JsFacts.

Lemma append_nil_l (s : string) : "" +:+ s = s.
Proof. reflexivity. Qed.

Lemma append_cons (a : ascii) (s t : string) : String a s +:+ t = String a (s +:+ t).
Proof. reflexivity. Qed.

(** Pushes appends below the characters of literal prefixes. *)
Ltac push_append := rewrite ?append_cons, ?append_nil_l.

Lemma append_nil_r (s : string) : s +:+ "" = s.
Proof. induction s as [|a s IH]; push_append; [reflexivity | now rewrite IH]. Qed.

Lemma append_assoc (a b c : string) : (a +:+ b) +:+ c = a +:+ b +:+ c.
Proof. induction a as [|x a IH]; push_append; [reflexivity | now rewrite IH]. Qed.

Lemma length_append (a b : string) :
  String.length (a +:+ b) = (String.length a + String.length b)%nat.
Proof. induction a as [|x a IH]; push_append; simpl; [reflexivity | now rewrite IH]. Qed.

Lemma tpl_cons (x : string) (l : list string) :
  ExportUtils.tpl (x :: l) = x +:+ ExportUtils.tpl l.
Proof.
  unfold ExportUtils.tpl. destruct l as [|y l]; simpl.
  - now rewrite append_nil_r.
  - reflexivity.
Qed.

Lemma tpl_app (l1 l2 : list string) :
  ExportUtils.tpl (l1 ++ l2) = ExportUtils.tpl l1 +:+ ExportUtils.tpl l2.
Proof.
  induction l1 as [|x l1 IH].
  - reflexivity.
  - change ((x :: l1) ++ l2) with (x :: (l1 ++ l2)).
    now rewrite !tpl_cons, IH, append_assoc.
Qed.

(** A run of fragments of a template occurs in the text of the template. *)
Lemma tpl_occurs (l1 mid l2 : list string) :
  Js.occurs_in (ExportUtils.tpl mid) (ExportUtils.tpl (l1 ++ mid ++ l2)).
Proof.
  exists (ExportUtils.tpl l1), (ExportUtils.tpl l2). now rewrite !tpl_app.
Qed.

Lemma occurs_in_append_r (x s t : string) : Js.occurs_in x s -> Js.occurs_in x (s +:+ t).
Proof.
  intros (pre & post & ->). exists pre, (post +:+ t).
  now rewrite !append_assoc.
Qed.

Lemma occurs_in_append_l (x s t : string) : Js.occurs_in x s -> Js.occurs_in x (t +:+ s).
Proof.
  intros (pre & post & ->). exists (t +:+ pre), post.
  now rewrite !append_assoc.
Qed.

Lemma prefix_append (x s : string) : String.prefix x (x +:+ s) = true.
Proof.
  induction x as [|a x IH]; push_append; simpl.
  - now destruct s.
  - destruct (ascii_dec a a) as [_|n]; [exact IH | now destruct n].
Qed.

Lemma prefix_split (x t : string) :
  String.prefix x t = true -> exists post, t = x +:+ post.
Proof.
  revert t. induction x as [|a x IH]; intros t H.
  - now exists t.
  - destruct t as [|c t]; [discriminate H |].
    simpl in H. destruct (ascii_dec a c) as [->|]; [| discriminate H].
    destruct (IH t H) as [post ->]. now exists post.
Qed.

Lemma includes_nil (x : string) : Js.includes x "" = String.prefix x "" || false.
Proof. reflexivity. Qed.

Lemma includes_cons (x : string) (a : ascii) (s : string) :
  Js.includes x (String a s) = String.prefix x (String a s) || Js.includes x s.
Proof. reflexivity. Qed.

(** [includes] decides [Js.occurs_in]. *)
Lemma includes_occurs (x s : string) : Js.includes x s = true <-> Js.occurs_in x s.
Proof.
  split.
  - induction s as [|a s IH]; [rewrite includes_nil | rewrite includes_cons];
      rewrite orb_true_iff; intros [H|H].
    + destruct (prefix_split _ _ H) as [post E]. now exists "", post.
    + discriminate H.
    + destruct (prefix_split _ _ H) as [post E]. now exists "", post.
    + destruct (IH H) as (pre & post & ->). now exists (String a pre), post.
  - intros (pre & post & ->). induction pre as [|a pre IH]; push_append.
    + destruct (x +:+ post) as [|c t] eqn:E.
      * rewrite includes_nil, <- E, prefix_append. reflexivity.
      * rewrite includes_cons, <- E, prefix_append. reflexivity.
    + rewrite includes_cons, IH. apply orb_true_r.
Qed.

Lemma occurs_in_padded (x pad : string) : Js.occurs_in x (pad +:+ x).
Proof. exists pad, "". now rewrite append_nil_r. Qed.

Lemma occurs_in_trans (x s t : string) :
  Js.occurs_in x s -> Js.occurs_in s t -> Js.occurs_in x t.
Proof.
  intros (p1 & q1 & ->) (p2 & q2 & ->).
  exists (p2 +:+ p1), (q1 +:+ q2). now rewrite !append_assoc.
Qed.

Lemma join_occurs (sep x : string) (l : list string) :
  In x l -> Js.occurs_in x (Js.join sep l).
Proof.
  unfold Js.join. induction l as [|y l IH]; intros Hin; [destruct Hin |].
  destruct Hin as [->|Hin].
  - destruct l as [|z l]; simpl.
    + exists "", "". push_append. now rewrite append_nil_r.
    + now exists "", (sep +:+ String.concat sep (z :: l)).
  - destruct l as [|z l]; [destruct Hin |].
    change (String.concat sep (y :: z :: l))
      with (y +:+ sep +:+ String.concat sep (z :: l)).
    now apply occurs_in_append_l, occurs_in_append_l, IH.
Qed.

(** The fragments [n], ..., [n + k - 1] of a template occur in its text. *)
Lemma tpl_occurs_at (n k : nat) (l : list string) :
  Js.occurs_in (ExportUtils.tpl (firstn k (skipn n l))) (ExportUtils.tpl l).
Proof.
  rewrite <- (firstn_skipn n l) at 2.
  rewrite <- (firstn_skipn k (skipn n l)) at 2.
  apply tpl_occurs.
Qed.

(** *** Digits *)

Lemma all_digits_append (a b : string) :
  Js.all_digits (a +:+ b) = Js.all_digits a && Js.all_digits b.
Proof.
  induction a as [|x a IH]; push_append; simpl; [reflexivity |].
  now rewrite IH, !andb_assoc.
Qed.

Lemma all_digits_repeat_zero (n : nat) : Js.all_digits (Js.repeat_char "0" n) = true.
Proof. induction n as [|n IH]; simpl; [reflexivity | exact IH]. Qed.

Lemma length_repeat_char (a : ascii) (n : nat) : String.length (Js.repeat_char a n) = n.
Proof. induction n as [|n IH]; simpl; [reflexivity | now rewrite IH]. Qed.

Lemma all_digits_substring (s : string) :
  Js.all_digits s = true -> forall n m, Js.all_digits (String.substring n m s) = true.
Proof.
  induction s as [|a s IH]; intros H n m.
  - now destruct n, m.
  - simpl in H. apply andb_true_iff in H as [Ha Hs].
    destruct n as [|n]; [destruct m as [|m] |]; simpl.
    + reflexivity.
    + rewrite Ha. now apply IH.
    + now apply IH.
Qed.

Lemma length_substring (s : string) :
  forall n m, (n + m <= String.length s)%nat -> String.length (String.substring n m s) = m.
Proof.
  induction s as [|a s IH]; intros n m H; simpl in H.
  - assert (n = 0%nat) by lia. assert (m = 0%nat) by lia. now subst.
  - destruct n as [|n]; [destruct m as [|m] |]; simpl.
    + reflexivity.
    + f_equal. apply IH. lia.
    + apply IH. lia.
Qed.

Lemma all_digits_uint (d : Decimal.uint) :
  Js.all_digits (NilEmpty.string_of_uint d) = true.
Proof. induction d; simpl; auto. Qed.

Lemma decimal_all_digits (n : Z) : Js.all_digits (Js.decimal n) = true.
Proof.
  unfold Js.decimal, NilZero.string_of_uint.
  destruct (N.to_uint (Z.to_N n)); try reflexivity; apply all_digits_uint.
Qed.

Lemma decimal_nonempty (n : Z) : (1 <= String.length (Js.decimal n))%nat.
Proof.
  unfold Js.decimal, NilZero.string_of_uint.
  destruct (N.to_uint (Z.to_N n)); simpl; lia.
Qed.

(** With at least one fraction digit, [place_point] yields a non-empty run
    of digits, a point, and exactly [f] digits. *)
Lemma place_point_shape (n : Z) (f : nat) :
  exists a b : string,
    Js.place_point n (S f) = a +:+ "." +:+ b /\
    String.length b = S f /\ (1 <= String.length a)%nat /\
    Js.all_digits a = true /\ Js.all_digits b = true.
Proof.
  unfold Js.place_point.
  set (m := Js.decimal n).
  set (m' := if (String.length m <=? S f)%nat
             then Js.repeat_char "0" (S f + 1 - String.length m) +:+ m else m).
  assert (Hd : Js.all_digits m' = true).
  { subst m'. destruct (String.length m <=? S f)%nat.
    - rewrite all_digits_append, all_digits_repeat_zero. apply decimal_all_digits.
    - apply decimal_all_digits. }
  assert (Hl : (S f + 1 <= String.length m')%nat).
  { subst m'. destruct (Nat.leb_spec (String.length m) (S f)).
    - rewrite length_append, length_repeat_char. lia.
    - lia. }
  exists (String.substring 0 (String.length m' - S f) m'),
         (String.substring (String.length m' - S f) (S f) m').
  split; [reflexivity |].
  split; [apply length_substring; lia |].
  split; [rewrite length_substring; lia |].
  split; now apply all_digits_substring.
Qed.

(** [Math.abs(x).toFixed(f)] in the digit range: no sign, digits, a point
    and [f] digits. *)
Lemma toFixed_abs_shape (p : float -> string) (x : float) (f : nat) :
  Js.in_fixed_range x = true ->
  exists a b : string,
    Js.toFixed p (abs x) (S f) = a +:+ "." +:+ b /\
    String.length b = S f /\ (1 <= String.length a)%nat /\
    Js.all_digits a = true /\ Js.all_digits b = true.
Proof.
  unfold Js.in_fixed_range, Js.toFixed. rewrite abs_spec.
  destruct (Prim2SF x) as [s| s | |s m e]; unfold SFabs; lazy beta iota;
    try discriminate.
  - intros _. apply place_point_shape.
  - intros H. apply negb_true_iff in H. rewrite H. push_append.
    apply place_point_shape.
Qed.

(** *** Escaping *)

Lemma replaceAll_append (c : ascii) (r x y : string) :
  Js.replaceAll c r (x +:+ y) = Js.replaceAll c r x +:+ Js.replaceAll c r y.
Proof.
  induction x as [|a x IH]; push_append; simpl; [reflexivity |].
  destruct (Ascii.eqb a c); rewrite IH; [now rewrite append_assoc | reflexivity].
Qed.

Lemma escapeXml_append (x y : string) :
  ExportUtils.escapeXml (x +:+ y) = ExportUtils.escapeXml x +:+ ExportUtils.escapeXml y.
Proof. unfold ExportUtils.escapeXml. now rewrite !replaceAll_append. Qed.

Lemma escapeXml_char (a : ascii) :
  ExportUtils.escapeXml (String a EmptyString) = ExportUtils.escape_char a.
Proof. destruct a as [[] [] [] [] [] [] [] []]; reflexivity. Qed.

(** The five replacements in a row amount to one pass over the characters. *)
Lemma escapeXml_one_pass (s : string) :
  ExportUtils.escapeXml s = ExportUtils.escape_each s.
Proof.
  induction s as [|a s IH]; [reflexivity |].
  change (String a s) with (String a EmptyString +:+ s).
  rewrite escapeXml_append, escapeXml_char, IH. reflexivity.
Qed.

Lemma or_empty (s : string) : Js.or_else (Some s) "" = s.
Proof. now destruct s. Qed.

End JsFacts.

(* ===================================================================== *)
(** * Properties of [formatCoordinates]                                   *)
(* ===================================================================== *)

Module GeolocationSpec.

Import JsFacts.

(** C9.  [formatCoordinates(lat, lon)] is [Math.abs(lat).toFixed(4)], the
    degree sign, [N] when [lat >= 0] and [S] otherwise, a comma and a blank,
    then the same for [lon] with [E] and [W].  For coordinates in the range
    that [toFixed] renders digit by digit (finite, below [10^21]) both numbers
    are unsigned and have exactly four digits after the point.  The two
    examples of the specification come out as stated. *)
Theorem formatCoordinates_spec (p : float -> string) :
  (forall lat lon : float,
     Geolocation.formatCoordinates p lat lon =
       Js.toFixed p (abs lat) 4 +:+ "°" +:+ (if (0 <=? lat)%float then "N" else "S") +:+ ", " +:+
       Js.toFixed p (abs lon) 4 +:+ "°" +:+ (if (0 <=? lon)%float then "E" else "W")) /\
  (forall lat lon : float,
     Js.in_fixed_range lat = true -> Js.in_fixed_range lon = true ->
     exists a b c d : string,
       Geolocation.formatCoordinates p lat lon =
         a +:+ "." +:+ b +:+ "°" +:+ (if (0 <=? lat)%float then "N" else "S") +:+ ", " +:+
         c +:+ "." +:+ d +:+ "°" +:+ (if (0 <=? lon)%float then "E" else "W") /\
       String.length b = 4%nat /\ String.length d = 4%nat /\
       (1 <= String.length a)%nat /\ (1 <= String.length c)%nat /\
       Js.all_digits a = true /\ Js.all_digits b = true /\
       Js.all_digits c = true /\ Js.all_digits d = true) /\
  Geolocation.formatCoordinates p 40.7128%float (-74.0060)%float = "40.7128°N, 74.0060°W" /\
  Geolocation.formatCoordinates p (-33.8688)%float 151.2093%float = "33.8688°S, 151.2093°E".
Proof.
  split; [reflexivity |].
  split; [| split; vm_compute; reflexivity].
  intros lat lon Hlat Hlon.
  destruct (toFixed_abs_shape p lat 3 Hlat) as (a & b & Ea & Hb & Ha & Da & Db).
  destruct (toFixed_abs_shape p lon 3 Hlon) as (c & d & Ec & Hd & Hc & Dc & Dd).
  exists a, b, c, d. unfold Geolocation.formatCoordinates.
  rewrite Ea, Ec, !append_assoc. repeat split; assumption.
Qed.

(** The coordinates of the first example are in the digit range. *)
Lemma formatCoordinates_spec_witness :
  exists a b c d : string,
    Geolocation.formatCoordinates Js.integral_toString 40.7128%float (-74.0060)%float =
      a +:+ "." +:+ b +:+ "°" +:+ "N" +:+ ", " +:+ c +:+ "." +:+ d +:+ "°" +:+ "W" /\
    String.length b = 4%nat /\ String.length d = 4%nat.
Proof.
  destruct (proj1 (proj2 (formatCoordinates_spec Js.integral_toString))
              40.7128%float (-74.0060)%float eq_refl eq_refl)
    as (a & b & c & d & E & Hb & Hd & _).
  exists a, b, c, d. split; [exact E | split; assumption].
Defined.

End GeolocationSpec.

(* ===================================================================== *)
(** * Properties of the export formatters                                 *)
(* ===================================================================== *)

Module ExportSpec.

Import Model ExportUtils JsFacts.

(** Closes a goal [occurs_in x (tpl l)] where [x] is the text of the
    fragments [n], ..., [n + k - 1] of [l]. *)
Ltac fragments n k :=
  match goal with
  | |- Js.occurs_in _ (tpl ?l) => exact (tpl_occurs_at n k l)
  end.

(** Closes a goal [occurs_in x (pad ++ x)] for a literal [pad]. *)
Ltac padded pad :=
  match goal with
  | |- Js.occurs_in ?x _ => exact (occurs_in_padded x pad)
  end.

Lemma xml_day_description (p : float -> string) (day : WeatherDataItem) :
  Js.occurs_in
    ("<weatherDescription>" +:+ escapeXml (weather_description day) +:+ "</weatherDescription>")
    (xml_day p day).
Proof.
  apply occurs_in_trans
    with ("      <weatherDescription>" +:+ escapeXml (weather_description day)
          +:+ "</weatherDescription>").
  - padded "      ".
  - unfold xml_day. fragments 37%nat 3%nat.
Qed.

(** C7.  [escapeXml] replaces the five metacharacters in the order ampersand,
    less-than, greater-than, double quote, apostrophe, and the outcome is the
    one-pass escaping of every character: the ampersands of the entities that
    the later replacements introduce are not escaped again.  The XML export
    carries the location name, the country, the time zone, the notes and every
    day's weather description in that escaped form; notes [A & B <C>] appear
    as [A &amp; B &lt;C&gt;]. *)
Theorem xml_export_escapes_free_text (p : float -> string) (request : WeatherRequest) :
  let xml := content (exportAsXML p request) in
  (forall s : string, escapeXml s = escape_each s) /\
  Js.occurs_in ("<name>" +:+ escape_each (location_name request) +:+ "</name>") xml /\
  Js.occurs_in ("<country>" +:+ escape_each (country request) +:+ "</country>") xml /\
  Js.occurs_in ("<timezone>" +:+ escape_each (timezone request) +:+ "</timezone>") xml /\
  Js.occurs_in ("<notes>" +:+ escape_each (notes request) +:+ "</notes>") xml /\
  (forall day : WeatherDataItem,
     In day (weather_data request) ->
     Js.occurs_in
       ("<weatherDescription>" +:+ escape_each (weather_description day)
        +:+ "</weatherDescription>") xml) /\
  (notes request = "A & B <C>" ->
   Js.occurs_in "<notes>A &amp; B &lt;C&gt;</notes>" xml).
Proof.
  intros xml.
  assert (Hnotes : Js.occurs_in ("<notes>" +:+ escape_each (notes request) +:+ "</notes>") xml).
  { apply occurs_in_trans
      with ("  <notes>" +:+ escapeXml (notes request) +:+ "</notes>").
    - rewrite escapeXml_one_pass. padded "  ".
    - rewrite <- (or_empty (notes request)) at 1.
      subst xml. unfold exportAsXML, downloadFile, content, xml_document.
      fragments 52%nat 3%nat. }
  split; [exact escapeXml_one_pass |].
  split.
  { apply occurs_in_trans
      with ("    <name>" +:+ escapeXml (location_name request) +:+ "</name>").
    - rewrite escapeXml_one_pass. padded "    ".
    - subst xml. unfold exportAsXML, downloadFile, content, xml_document.
      fragments 18%nat 3%nat. }
  split.
  { apply occurs_in_trans
      with ("    <country>" +:+ escapeXml (country request) +:+ "</country>").
    - rewrite escapeXml_one_pass. padded "    ".
    - subst xml. unfold exportAsXML, downloadFile, content, xml_document.
      fragments 22%nat 3%nat. }
  split.
  { apply occurs_in_trans
      with ("    <timezone>" +:+ escapeXml (timezone request) +:+ "</timezone>").
    - rewrite escapeXml_one_pass. padded "    ".
    - subst xml. unfold exportAsXML, downloadFile, content, xml_document.
      fragments 34%nat 3%nat. }
  split; [exact Hnotes |].
  split.
  - intros day Hin. rewrite <- escapeXml_one_pass.
    apply occurs_in_trans with (xml_day p day); [apply xml_day_description |].
    apply occurs_in_trans with (Js.join Js.nl (map (xml_day p) (weather_data request))).
    + apply join_occurs, in_map, Hin.
    + subst xml. unfold exportAsXML, downloadFile, content, xml_document.
      fragments 58%nat 1%nat.
  - intros E. rewrite E in Hnotes. exact Hnotes.
Qed.

(** The sample record with notes [A & B <C>] and two days of data. *)
Lemma xml_export_escapes_free_text_witness :
  Js.occurs_in "<notes>A &amp; B &lt;C&gt;</notes>"
    (content (exportAsXML Js.integral_toString (sample_request [day1; day2] "A & B <C>"))) /\
  Js.occurs_in "<weatherDescription>Slight rain</weatherDescription>"
    (content (exportAsXML Js.integral_toString (sample_request [day1; day2] "A & B <C>"))).
Proof.
  pose proof (xml_export_escapes_free_text Js.integral_toString
                (sample_request [day1; day2] "A & B <C>")) as H.
  split.
  - exact (proj2 (proj2 (proj2 (proj2 (proj2 (proj2 H))))) eq_refl).
  - exact (proj1 (proj2 (proj2 (proj2 (proj2 (proj2 H))))) day2 (or_intror (or_introl eq_refl))).
Defined.

(** ** Statistics *)

Lemma fold_sum_map (field : WeatherDataItem -> float) (data : list WeatherDataItem) :
  forall acc : float,
    fold_left (fun sum d => (sum + field d)%float) data acc =
    fold_left (fun sum x => (sum + x)%float) (map field data) acc.
Proof. induction data as [|d data IH]; intros acc; simpl; [reflexivity | apply IH]. Qed.

(** A sum over the days only depends on the values of the summed field. *)
Lemma reduce_sum_map (field : WeatherDataItem -> float) (data : list WeatherDataItem) :
  reduce_sum field data = fold_left (fun sum x => (sum + x)%float) (map field data) 0%float.
Proof. apply fold_sum_map. Qed.

Lemma length_number_map {A B} (f : A -> B) (l : list A) :
  length_number l = length_number (map f l).
Proof. unfold length_number. now rewrite length_map. Qed.

(** The Markdown report is its head, its statistics and its foot. *)
Lemma markdown_statistics_occur (p : float -> string) (now : string)
    (request : WeatherRequest) (n k : nat) :
  Js.occurs_in (tpl (firstn k (skipn n (markdown_statistics p request))))
    (content (exportAsMarkdown p now request)).
Proof.
  apply occurs_in_trans with (tpl (markdown_statistics p request)).
  - apply tpl_occurs_at.
  - exists (tpl (markdown_head p request)), (tpl (markdown_foot p now request)).
    unfold exportAsMarkdown, downloadFile, content, markdown_document.
    now rewrite !tpl_app.
Qed.

Lemma csv_empty_rows (p : float -> string) (request : WeatherRequest) :
  weather_data request = [] ->
  content (exportAsCSV p request) =
    csv_metadata p request +:+ Js.join "," csv_headers +:+ Js.nl.
Proof.
  intros E. unfold exportAsCSV, downloadFile, content, csv_document.
  rewrite E. simpl map. unfold Js.join at 3. simpl String.concat.
  now rewrite append_nil_r.
Qed.

(** The CSV text ends with the row of the last day. *)
Lemma csv_ends_with_last_row (p : float -> string) (request : WeatherRequest)
    (day : WeatherDataItem) :
  last (weather_data request) = Some day ->
  exists pre : string,
    content (exportAsCSV p request) = pre +:+ Js.join "," (csv_row p day).
Proof.
  intros Hlast. unfold exportAsCSV, downloadFile, content, csv_document.
  assert (H : exists pre, Js.join Js.nl
                (map (fun row => Js.join "," row) (map (csv_row p) (weather_data request)))
              = pre +:+ Js.join "," (csv_row p day)).
  { revert Hlast. generalize (weather_data request) as data.
    induction data as [|d data IH]; intros Hlast; [discriminate Hlast |].
    destruct data as [|d' data].
    - injection Hlast as ->. now exists "".
    - destruct (IH Hlast) as [pre E].
      exists (Js.join "," (csv_row p d) +:+ Js.nl +:+ pre).
      change (Js.join Js.nl (map (fun row => Js.join "," row)
                (map (csv_row p) (d :: d' :: data))))
        with (Js.join "," (csv_row p d) +:+ Js.nl +:+
              Js.join Js.nl (map (fun row => Js.join "," row)
                (map (csv_row p) (d' :: data)))).
      now rewrite E, !append_assoc. }
  destruct H as [pre ->].
  exists (csv_metadata p request +:+ Js.join "," csv_headers +:+ Js.nl +:+ pre).
  now rewrite !append_assoc.
Qed.

(** C8, as amended.  For a request whose two days have maximum temperatures
    20 and 22, minimum temperatures 10 and 12, precipitation 0 and 2 and
    maximum wind speeds 5 and 7, the Markdown report states the mean maximum
    temperature 21.0, the mean minimum temperature 11.0, the total
    precipitation 2.0 and the mean wind speed 6.0, each with one decimal.
    The CSV export has no statistics: its text ends with the row of the last
    day. *)
Theorem markdown_statistics_two_days (p : float -> string) (now : string)
    (request : WeatherRequest) :
  map temperature_max (weather_data request) = [20%float; 22%float] ->
  map temperature_min (weather_data request) = [10%float; 12%float] ->
  map precipitation (weather_data request) = [0%float; 2%float] ->
  map wind_speed_max (weather_data request) = [5%float; 7%float] ->
  Js.occurs_in
    ("- **Average Max Temperature:** 21.0°C" +:+ Js.nl +:+
     "- **Average Min Temperature:** 11.0°C" +:+ Js.nl +:+
     "- **Total Precipitation:** 2.0mm" +:+ Js.nl)
    (content (exportAsMarkdown p now request)) /\
  Js.occurs_in ("- **Average Wind Speed:** 6.0km/h" +:+ Js.nl)
    (content (exportAsMarkdown p now request)) /\
  (forall day : WeatherDataItem,
     last (weather_data request) = Some day ->
     exists pre : string,
       content (exportAsCSV p request) = pre +:+ Js.join "," (csv_row p day)).
Proof.
  intros Hmax Hmin Hprec Hwind.
  split; [| split].
  - replace ("- **Average Max Temperature:** 21.0°C" +:+ Js.nl +:+
             "- **Average Min Temperature:** 11.0°C" +:+ Js.nl +:+
             "- **Total Precipitation:** 2.0mm" +:+ Js.nl)
      with (tpl (firstn 12 (skipn 0 (markdown_statistics p request)))).
    + apply markdown_statistics_occur.
    + unfold markdown_statistics.
      rewrite !reduce_sum_map, (length_number_map temperature_max), Hmax, Hmin, Hprec.
      vm_compute. reflexivity.
  - replace ("- **Average Wind Speed:** 6.0km/h" +:+ Js.nl)
      with (tpl (firstn 4 (skipn 16 (markdown_statistics p request)))).
    + apply markdown_statistics_occur.
    + unfold markdown_statistics.
      rewrite !reduce_sum_map, (length_number_map wind_speed_max), Hwind.
      vm_compute. reflexivity.
  - intros day. apply csv_ends_with_last_row.
Qed.

(** The sample request with the two days of the claim. *)
Lemma markdown_statistics_two_days_witness :
  Js.occurs_in
    ("- **Average Max Temperature:** 21.0°C" +:+ Js.nl +:+
     "- **Average Min Temperature:** 11.0°C" +:+ Js.nl +:+
     "- **Total Precipitation:** 2.0mm" +:+ Js.nl)
    (content (exportAsMarkdown Js.integral_toString "1/3/2024, 10:00:00 AM" two_day_request)) /\
  exists pre : string,
    content (exportAsCSV Js.integral_toString two_day_request) =
      pre +:+ Js.join "," (csv_row Js.integral_toString day2).
Proof.
  pose proof (markdown_statistics_two_days Js.integral_toString "1/3/2024, 10:00:00 AM"
                two_day_request eq_refl eq_refl eq_refl eq_refl) as (H1 & _ & H3).
  split; [exact H1 | exact (H3 day2 eq_refl)].
Defined.

(** C8 as stated fails on the CSV export: for the two days of the claim its
    text holds none of the four statistics. *)
Lemma csv_has_no_statistics :
  Js.includes "21.0" (content (exportAsCSV Js.integral_toString two_day_request)) = false /\
  Js.includes "11.0" (content (exportAsCSV Js.integral_toString two_day_request)) = false /\
  Js.includes "2.0" (content (exportAsCSV Js.integral_toString two_day_request)) = false /\
  Js.includes "6.0" (content (exportAsCSV Js.integral_toString two_day_request)) = false /\
  content (exportAsCSV Js.integral_toString two_day_request) =
    "# Weather Data for Manila, Philippines" +:+ Js.nl +:+
    "# Date Range: 2024-01-01 to 2024-01-02" +:+ Js.nl +:+
    "# Location: 14, 121" +:+ Js.nl +:+
    "# Timezone: Asia/Manila" +:+ Js.join "," csv_headers +:+ Js.nl +:+
    "2024-01-01,20,10,15,19,9,0,0,1," +:+ Js.dq +:+ "Mainly clear" +:+ Js.dq +:+ ",5,180" +:+ Js.nl +:+
    "2024-01-02,22,12,,21,11,2,2,61," +:+ Js.dq +:+ "Slight rain" +:+ Js.dq +:+ ",7,90".
Proof. repeat split; vm_compute; reflexivity. Qed.

(** C4, as amended.  For a request without any day of data, the CSV export
    is the metadata header and the column header row, with nothing after it
    (it carries no statistics), and the Markdown report states a total
    precipitation and a total rain of 0.0mm.  Both exports are total
    functions of the request: nothing is thrown. *)
Theorem empty_data_exports (p : float -> string) (now : string) (request : WeatherRequest) :
  weather_data request = [] ->
  content (exportAsCSV p request) =
    csv_metadata p request +:+ Js.join "," csv_headers +:+ Js.nl /\
  Js.occurs_in
    ("- **Total Precipitation:** 0.0mm" +:+ Js.nl +:+ "- **Total Rain:** 0.0mm" +:+ Js.nl)
    (content (exportAsMarkdown p now request)).
Proof.
  intros E. split; [now apply csv_empty_rows |].
  replace ("- **Total Precipitation:** 0.0mm" +:+ Js.nl +:+ "- **Total Rain:** 0.0mm" +:+ Js.nl)
    with (tpl (firstn 8 (skipn 8 (markdown_statistics p request)))).
  - apply markdown_statistics_occur.
  - unfold markdown_statistics. rewrite E. vm_compute. reflexivity.
Qed.

Lemma empty_data_exports_witness :
  content (exportAsCSV Js.integral_toString empty_request) =
    csv_metadata Js.integral_toString empty_request +:+ Js.join "," csv_headers +:+ Js.nl /\
  Js.occurs_in
    ("- **Total Precipitation:** 0.0mm" +:+ Js.nl +:+ "- **Total Rain:** 0.0mm" +:+ Js.nl)
    (content (exportAsMarkdown Js.integral_toString "1/3/2024, 10:00:00 AM" empty_request)).
Proof.
  exact (empty_data_exports Js.integral_toString "1/3/2024, 10:00:00 AM" empty_request eq_refl).
Defined.

(** C4 as stated fails: without any day of data the three means of the
    Markdown report are the quotient of 0 by 0, rendered [NaN]; no
    not-available text takes their place, and the CSV text has no statistics
    to report. *)
Lemma empty_data_means_are_NaN :
  Js.includes "- **Average Max Temperature:** NaN°C"
    (content (exportAsMarkdown Js.integral_toString "1/3/2024, 10:00:00 AM" empty_request)) = true /\
  Js.includes "- **Average Min Temperature:** NaN°C"
    (content (exportAsMarkdown Js.integral_toString "1/3/2024, 10:00:00 AM" empty_request)) = true /\
  Js.includes "- **Average Wind Speed:** NaNkm/h"
    (content (exportAsMarkdown Js.integral_toString "1/3/2024, 10:00:00 AM" empty_request)) = true /\
  Js.includes "not available"
    (content (exportAsMarkdown Js.integral_toString "1/3/2024, 10:00:00 AM" empty_request)) = false /\
  Js.includes "N/A"
    (content (exportAsMarkdown Js.integral_toString "1/3/2024, 10:00:00 AM" empty_request)) = false /\
  content (exportAsCSV Js.integral_toString empty_request) =
    "# Weather Data for Manila, Philippines" +:+ Js.nl +:+
    "# Date Range: 2024-01-01 to 2024-01-02" +:+ Js.nl +:+
    "# Location: 14, 121" +:+ Js.nl +:+
    "# Timezone: Asia/Manila" +:+ Js.join "," csv_headers +:+ Js.nl.
Proof. repeat split; vm_compute; reflexivity. Qed.

End ExportSpec.

(* ===================================================================== *)
(** * Properties of the session store and of the API client               *)
(* ===================================================================== *)

Module ApiClientSpec.

Import ApiClient.

(** ** Session store *)

Lemma getToken_setToken (t : option string) (w : World) : getToken (setToken t w) = t.
Proof.
  unfold getToken, setToken.
  destruct (localStorage (set_token t w)); [| reflexivity].
  destruct t as [s|]; [destruct (Js.truthy_string s) |]; reflexivity.
Qed.

Lemma sent_setToken (t : option string) (w : World) : sent (setToken t w) = sent w.
Proof.
  unfold setToken.
  destruct (localStorage (set_token t w)); [| reflexivity].
  destruct t as [s|]; [destruct (Js.truthy_string s) |]; reflexivity.
Qed.

Lemma stored_token_setToken (t : option string) (w : World) :
  localStorage w <> None ->
  stored_token (setToken t w) = if truthy_nullable t then t else None.
Proof.
  unfold stored_token, setToken, truthy_nullable. simpl.
  destruct (localStorage w) as [st|]; [intros _ | congruence].
  destruct t as [s|]; [destruct (Js.truthy_string s) |]; simpl.
  - apply lookup_insert_eq.
  - apply lookup_delete_eq.
  - apply lookup_delete_eq.
Qed.

Lemma other_keys_setToken (t : option string) (w : World) (st : gmap string string) :
  localStorage w = Some st ->
  exists st' : gmap string string,
    localStorage (setToken t w) = Some st' /\
    forall k : string, k <> "auth_token" -> st' !! k = st !! k.
Proof.
  intros E. unfold setToken. simpl. rewrite E.
  destruct t as [s|]; [destruct (Js.truthy_string s) |]; simpl;
    eexists; (split; [reflexivity |]); intros k Hk.
  - now apply lookup_insert_ne.
  - now apply lookup_delete_ne.
  - now apply lookup_delete_ne.
Qed.

(** C5, as amended.  After [setToken(T)], [getToken()] returns [T], for
    every [T] including [null]; no request is sent.  Where there is a
    [localStorage], the key [auth_token] then holds [T] when [T] is a
    non-empty string and is absent when [T] is [null] or the empty string,
    and no other key changes; so for every [T] but the empty string the
    stored value and the value in memory agree, and a client constructed
    from that storage starts with token [T].  After [setToken(null)],
    [isAuthenticated()] is false; [isAuthenticated()] is [token !== null],
    a function of the client's field alone. *)
Theorem setToken_getToken_agree (T : option string) (w : World) :
  getToken (setToken T w) = T /\
  sent (setToken T w) = sent w /\
  (forall st : gmap string string,
     localStorage w = Some st ->
     stored_token (setToken T w) = (if truthy_nullable T then T else None) /\
     (T <> Some "" ->
      stored_token (setToken T w) = getToken (setToken T w) /\
      forall url : string,
        getToken (new_client url (localStorage (setToken T w))) = T) /\
     exists st' : gmap string string,
       localStorage (setToken T w) = Some st' /\
       forall k : string, k <> "auth_token" -> st' !! k = st !! k) /\
  isAuthenticated (setToken None w) = false /\
  (isAuthenticated w = true <-> getToken w <> None).
Proof.
  split; [apply getToken_setToken |].
  split; [apply sent_setToken |].
  split; [| split].
  - intros st E.
    assert (Hst : localStorage w <> None) by congruence.
    pose proof (stored_token_setToken T w Hst) as Hs.
    split; [exact Hs |]. split; [| now apply other_keys_setToken].
    intros Hne.
    assert (Ht : (if truthy_nullable T then T else None) = T).
    { destruct T as [s|]; [| reflexivity]. simpl.
      destruct s; [congruence | reflexivity]. }
    rewrite Ht in Hs. split.
    + now rewrite getToken_setToken.
    + intros url. unfold new_client, getToken. simpl.
      unfold stored_token in Hs.
      destruct (localStorage (setToken T w)); [exact Hs |].
      unfold setToken in *. simpl in *. now rewrite E in *.
  - unfold isAuthenticated. now rewrite (getToken_setToken None w : token _ = None).
  - unfold isAuthenticated, getToken. destruct (token (this w)); split; congruence.
Qed.

(** A signed-in browser session that signs in again with a new token. *)
Lemma setToken_getToken_agree_witness :
  stored_token (setToken (Some "tok-2") signed_in) = Some "tok-2" /\
  getToken (new_client "http://localhost:8000/api/weather"
              (localStorage (setToken (Some "tok-2") signed_in))) = Some "tok-2".
Proof.
  destruct (setToken_getToken_agree (Some "tok-2") signed_in) as (_ & _ & H & _).
  destruct (H {["auth_token" := "abc123"]} eq_refl) as (H1 & H2 & _).
  split; [exact H1 |].
  exact (proj2 (H2 ltac:(discriminate)) "http://localhost:8000/api/weather").
Defined.

(** C5 as stated fails for the empty string: [setToken("")] keeps [""] in
    memory, where [isAuthenticated()] is true, but removes the storage key
    instead of writing it, and a client constructed from the storage starts
    without a token. *)
Lemma empty_token_is_not_stored :
  getToken (setToken (Some "") signed_in) = Some "" /\
  stored_token (setToken (Some "") signed_in) = None /\
  isAuthenticated (setToken (Some "") signed_in) = true /\
  getToken (new_client "http://localhost:8000/api/weather"
              (localStorage (setToken (Some "") signed_in))) = None.
Proof. repeat split; vm_compute; reflexivity. Qed.

(** ** Running the network methods *)

Section Running.

Context {env : Environment}.

Lemma handleResponse_run (response : Response Json) (w : World) :
  handleResponse response w = (handled response, w).
Proof.
  unfold handleResponse, handled, bind, await, throw.
  destruct (ok response); simpl; [reflexivity |].
  destruct (json response); reflexivity.
Qed.

(** Unfolds one method down to the outcome of its [fetch]. *)
Ltac run_method :=
  lazy beta iota zeta delta
    [call searchLocation getCurrentWeather getForecast getHourlyForecast
     getCompleteWeather getWeatherByCoordinates signup login logout getCurrentUser
     validateLocation validateDateRange createWeatherRequest getWeatherRequests
     getWeatherRequestById updateWeatherRequest deleteWeatherRequest
     Promise_all bind get_this fetch ret await throw fst snd].

(** Case analysis on the outcomes of the two requests of
    [getWeatherByCoordinates] and on what [handleResponse] makes of them. *)
Ltac by_outcomes w :=
  destruct (network (sent w) _) as [?resp|?e]; rewrite ?handleResponse_run;
  lazy beta iota zeta delta [fst snd];
  (destruct (network (sent _) _) as [?resp|?e]); rewrite ?handleResponse_run;
  lazy beta iota zeta delta [fst snd];
  repeat match goal with
         | |- context [handled ?r] => destruct (handled r)
         end;
  try reflexivity.

(** Gives the next [fetch] of the goal the outcome that the hypothesis [H]
    states for that very request. *)
Ltac answer_with H :=
  match type of H with
  | _ = ?outcome =>
      match goal with
      | |- context [network (sent ?w) ?req] =>
          replace (network (sent w) req) with outcome by (symmetry; exact H)
      end
  end;
  rewrite ?handleResponse_run; lazy beta iota zeta delta [fst snd].

(** The requests that a method sends are [request_of] and, where there is
    one, [second_request], whatever the server answers. *)
Lemma call_sends {A} (c : ApiCall A) (w : World) :
  is_logout c = false ->
  sent (snd (call c w)) =
    sent w ++ request_of c w :: match second_request c w with
                                | Some req2 => [req2]
                                | None => []
                                end.
Proof.
  intros Hc.
  destruct c; try discriminate Hc; run_method;
    try (destruct (network (sent w) _); rewrite ?handleResponse_run;
         lazy beta iota zeta delta [fst snd];
         try match goal with
             | |- context [handled ?r] => destruct (handled r)
             end;
         rewrite ?sent_setToken; reflexivity).
  by_outcomes w; destruct forecast_settles_first; cbn [sent snd log_request];
    rewrite <- ?app_assoc; reflexivity.
Qed.

(** A method whose requests are answered with [response1] and [response2]
    rejects with the error that [handleResponse] throws for one of them,
    when it returns the body of the other or throws the same error for
    it. *)
Lemma call_rejects {A} (c : ApiCall A) (w : World)
    (response1 response2 : Response Json) (e : Exn) :
  is_logout c = false ->
  network (sent w) (request_of c w) = Fulfilled response1 ->
  (forall req2 : Request,
     second_request c w = Some req2 ->
     network (sent w ++ [request_of c w]) req2 = Fulfilled response2) ->
  handled response1 = Rejected e /\
    (second_request c w = None \/ handled response2 = Rejected e \/
     exists data : Json, handled response2 = Fulfilled data) \/
  second_request c w <> None /\
    (exists data : Json, handled response1 = Fulfilled data) /\
    handled response2 = Rejected e ->
  fst (call c w) = Rejected e.
Proof.
  intros Hc H1 H2 Hcases.
  destruct c; try discriminate Hc;
    try (destruct Hcases as [[Hh _] | [Hsnd _]]; [| now contradiction Hsnd];
         run_method; answer_with H1; rewrite Hh; reflexivity).
  specialize (H2 _ eq_refl).
  run_method. answer_with H1. answer_with H2.
  destruct Hcases as [[Hh1 [Hsnd | [Hh2 | [data Hh2]]]] | [_ [[data Hh1] Hh2]]];
    try discriminate Hsnd; rewrite Hh1, Hh2;
    destruct forecast_settles_first; reflexivity.
Qed.

(** A method whose requests are answered with responses whose bodies
    [handleResponse] returns, returns [from_bodies] of these bodies. *)
Lemma call_returns {A} (c : ApiCall A) (w : World)
    (response1 response2 : Response Json) (data1 data2 : Json) :
  is_logout c = false ->
  network (sent w) (request_of c w) = Fulfilled response1 ->
  (forall req2 : Request,
     second_request c w = Some req2 ->
     network (sent w ++ [request_of c w]) req2 = Fulfilled response2) ->
  handled response1 = Fulfilled data1 ->
  (second_request c w <> None -> handled response2 = Fulfilled data2) ->
  fst (call c w) = Fulfilled (ApiCalls.from_bodies c data1 data2).
Proof.
  intros Hc H1 H2 Hh1 Hh2.
  destruct c; try discriminate Hc;
    try (run_method; answer_with H1; rewrite Hh1; reflexivity).
  specialize (H2 _ eq_refl). specialize (Hh2 ltac:(discriminate)).
  run_method. answer_with H1. answer_with H2.
  rewrite Hh1, Hh2. destruct forecast_settles_first; reflexivity.
Qed.

Lemma logout_run (w : World) :
  logout w =
    if truthy_nullable (getToken w) then
      match network (sent w) (logout_request w) with
      | Fulfilled _ => (Fulfilled tt, setToken None (log_request (logout_request w) w))
      | Rejected e => (Rejected e, log_request (logout_request w) w)
      end
    else (Fulfilled tt, setToken None w).
Proof.
  run_method. unfold getToken, logout_request.
  destruct (truthy_nullable (token (this w))); [| reflexivity].
  run_method. now destruct (network (sent w) _).
Qed.

Lemma stored_token_cleared (w : World) : stored_token (setToken None w) = None.
Proof.
  destruct w as [c [st|] reqs]; unfold stored_token, setToken; simpl;
    [apply lookup_delete_eq | reflexivity].
Qed.

(** C2, as amended.  Every method but [logout], request by request: when
    the server answers the request of the method with a non-2xx response
    whose body parses, the method rejects with the single error
    [Error(message)], [message] being the body's [message] field when that
    is a non-empty string and [An error occurred] when it is absent or
    empty; when the body does not parse, the method rejects with the parse
    failure itself.  For [getWeatherByCoordinates], which awaits two
    responses, this holds of either request, the other one being answered
    the same or with a 2xx response whose body parses.  The method sends no
    request but these, so that nothing hides the error. *)
Theorem error_response_is_thrown {A} (c : ApiCall A) (w : World)
    (response response1 response2 : Response Json) :
  is_logout c = false ->
  ok response = false ->
  network (sent w) (request_of c w) = Fulfilled response1 ->
  (forall req2 : Request,
     second_request c w = Some req2 ->
     network (sent w ++ [request_of c w]) req2 = Fulfilled response2) ->
  response1 = response /\
    (second_request c w = None \/ response2 = response \/ accepted response2) \/
  second_request c w <> None /\ accepted response1 /\ response2 = response ->
  (forall (error : Json) (m : string),
     json response = Fulfilled error -> message_of error = Some m -> m <> "" ->
     fst (call c w) = Rejected (Error m)) /\
  (forall error : Json,
     json response = Fulfilled error ->
     message_of error = None \/ message_of error = Some "" ->
     fst (call c w) = Rejected (Error "An error occurred")) /\
  (forall e : Exn, json response = Rejected e -> fst (call c w) = Rejected e) /\
  sent (snd (call c w)) =
    sent w ++ request_of c w :: match second_request c w with
                                | Some req2 => [req2]
                                | None => []
                                end.
Proof.
  intros Hc Hok H1 H2 Hcases.
  assert (Hacc : forall r : Response Json,
            accepted r -> exists data : Json, handled r = Fulfilled data).
  { intros r [Hr [data Hj]]. exists data. unfold handled. now rewrite Hr. }
  assert (Hthrown : forall e : Exn, handled response = Rejected e ->
                                    fst (call c w) = Rejected e).
  { intros e Hh. apply (call_rejects c w response1 response2); try assumption.
    destruct Hcases as [[-> [Hsnd | [-> | Hr2]]] | [Hsnd [Hr1 ->]]].
    - left. split; [assumption | now left].
    - left. split; [assumption | right; now left].
    - left. split; [assumption | right; right; now apply Hacc].
    - right. split; [assumption | split; [now apply Hacc | assumption]]. }
  split; [| split; [| split]].
  - intros error m Hj Hm Hne. apply Hthrown.
    unfold handled, Js.or_else. rewrite Hok, Hj, Hm. now destruct m.
  - intros error Hj Hm. apply Hthrown.
    unfold handled, Js.or_else. rewrite Hok, Hj. now destruct Hm as [-> | ->].
  - intros e Hj. apply Hthrown. unfold handled. now rewrite Hok, Hj.
  - now apply call_sends.
Qed.

(** C10.  While a token is present, [logout] never looks at the response:
    whatever response the server gives to the logout request, of any status
    and with any body, [logout] is fulfilled and the token is cleared, in
    memory and in storage. *)
Theorem logout_ignores_the_response (w : World) (response : Response Json) :
  getToken w <> None ->
  network (sent w) (logout_request w) = Fulfilled response ->
  fst (logout w) = Fulfilled tt /\
  getToken (snd (logout w)) = None /\
  stored_token (snd (logout w)) = None /\
  isAuthenticated (snd (logout w)) = false.
Proof.
  intros _ Hnet. rewrite logout_run, Hnet.
  assert (H : forall w', isAuthenticated (setToken None w') = false).
  { intros w'. unfold isAuthenticated.
    now rewrite (getToken_setToken None w' : token _ = None). }
  destruct (truthy_nullable (getToken w)); simpl;
    rewrite getToken_setToken, stored_token_cleared, H; auto.
Qed.

(** C1, as amended.  [logout]: with a non-empty token, one POST to
    [/auth/logout] carrying the current [Authorization] header is sent;
    without one, nothing is sent.  When that request gets a response, or
    when none was sent, [logout] is fulfilled and the token is cleared in
    memory and in storage.  When the request fails in transport, [logout]
    rejects with that failure and the token stays as it was. *)
Theorem logout_clears_the_session (w : World) :
  (forall t : string,
     getToken w = Some t -> t <> "" ->
     sent (snd (logout w)) = sent w ++ [logout_request w] /\
     method (logout_request w) = Some "POST" /\
     In ("Authorization", "Bearer " +:+ t) (headers (logout_request w))) /\
  (truthy_nullable (getToken w) = false ->
   logout w = (Fulfilled tt, setToken None w)) /\
  (forall response : Response Json,
     network (sent w) (logout_request w) = Fulfilled response ->
     fst (logout w) = Fulfilled tt /\
     getToken (snd (logout w)) = None /\ stored_token (snd (logout w)) = None) /\
  (forall e : Exn,
     truthy_nullable (getToken w) = true ->
     network (sent w) (logout_request w) = Rejected e ->
     logout w = (Rejected e, log_request (logout_request w) w) /\
     getToken (snd (logout w)) = getToken w /\
     stored_token (snd (logout w)) = stored_token w).
Proof.
  rewrite logout_run. split; [| split; [| split]].
  - intros t Ht Hne. unfold truthy_nullable. rewrite Ht.
    assert (Htruthy : Js.truthy_string t = true) by now destruct t.
    rewrite Htruthy. split; [| split].
    + destruct (network (sent w) (logout_request w)); simpl;
        [now rewrite sent_setToken | reflexivity].
    + reflexivity.
    + unfold logout_request, getAuthHeaders. simpl.
      unfold getToken in Ht. rewrite Ht, Htruthy. simpl. auto.
  - now intros ->.
  - intros response Hnet. rewrite Hnet.
    destruct (truthy_nullable (getToken w)); simpl;
      rewrite getToken_setToken, stored_token_cleared; auto.
  - intros e Ht Hnet. now rewrite Ht, Hnet.
Qed.

(** C3.  [getWeatherByCoordinates] starts both legs, the current-weather
    request first and the forecast request next, whatever the outcome of
    either; it is fulfilled exactly when both legs are, with
    [{ current, forecast }] where [forecast] is the [forecast] field of the
    forecast leg's result; when a leg rejects, the call rejects with a leg's
    error and yields no object.  The client's token and the storage are left
    alone. *)
Theorem getWeatherByCoordinates_joins_both_legs (lat lon : float) (days : option float)
    (w : World) :
  let leg1 := getCurrentWeather lat lon w in
  let leg2 := getForecast lat lon (Some (default 7%float days)) (snd leg1) in
  let all := getWeatherByCoordinates lat lon days w in
  (exists r1 r2 : Request,
     sent (snd leg1) = sent w ++ [r1] /\
     sent (snd leg2) = sent (snd leg1) ++ [r2] /\
     sent (snd all) = sent w ++ [r1; r2]) /\
  this (snd all) = this w /\ localStorage (snd all) = localStorage w /\
  fst all =
    match fst leg1, fst leg2 with
    | Fulfilled c, Fulfilled f => Fulfilled {| current := c; forecast := forecast_of f |}
    | Rejected e, Fulfilled _ => Rejected e
    | Fulfilled _, Rejected e => Rejected e
    | Rejected e1, Rejected e2 => Rejected (if forecast_settles_first then e2 else e1)
    end /\
  (forall r : CoordinatesWeather,
     fst all = Fulfilled r ->
     exists c f : Json, fst leg1 = Fulfilled c /\ fst leg2 = Fulfilled f) /\
  (forall e : Exn,
     fst leg1 = Rejected e \/ fst leg2 = Rejected e ->
     exists e' : Exn, fst all = Rejected e').
Proof.
  intros leg1 leg2 all.
  assert (Hrun : all =
    (match fst leg1, fst leg2 with
     | Fulfilled c, Fulfilled f => Fulfilled {| current := c; forecast := forecast_of f |}
     | Rejected e, Fulfilled _ => Rejected e
     | Fulfilled _, Rejected e => Rejected e
     | Rejected e1, Rejected e2 => Rejected (if forecast_settles_first then e2 else e1)
     end, snd leg2)).
  { subst all leg2 leg1. run_method. by_outcomes w. }
  assert (Hall := f_equal fst Hrun). assert (Hworld := f_equal snd Hrun).
  simpl in Hall, Hworld.
  split; [| split; [| split; [| split; [exact Hall | split]]]].
  - rewrite Hworld. subst leg2 leg1. eexists _, _. run_method.
    by_outcomes w; simpl; rewrite <- ?app_assoc; repeat split; reflexivity.
  - rewrite Hworld. subst leg2 leg1. run_method. by_outcomes w.
  - rewrite Hworld. subst leg2 leg1. run_method. by_outcomes w.
  - intros r Hr. rewrite Hall in Hr.
    destruct (fst leg1) as [c|e1], (fst leg2) as [f|e2]; try discriminate Hr.
    now exists c, f.
  - intros e He. rewrite Hall.
    destruct (fst leg1) as [c|e1], (fst leg2) as [f|e2]; eauto.
    destruct He; discriminate.
Qed.

Lemma signup_run (payload : SignupPayload) (w : World) :
  signup payload w =
    match network (sent w) (signup_request payload w) with
    | Fulfilled response =>
        match handled response with
        | Fulfilled data =>
            (Fulfilled data,
             setToken (Some (token_of data)) (log_request (signup_request payload w) w))
        | Rejected e => (Rejected e, log_request (signup_request payload w) w)
        end
    | Rejected e => (Rejected e, log_request (signup_request payload w) w)
    end.
Proof.
  run_method. unfold signup_request.
  destruct (network (sent w) _) as [response|e]; [| reflexivity].
  rewrite handleResponse_run. now destruct (handled response).
Qed.

Lemma login_run (payload : LoginPayload) (w : World) :
  login payload w =
    match network (sent w) (login_request payload w) with
    | Fulfilled response =>
        match handled response with
        | Fulfilled data =>
            (Fulfilled data,
             setToken (Some (token_of data)) (log_request (login_request payload w) w))
        | Rejected e => (Rejected e, log_request (login_request payload w) w)
        end
    | Rejected e => (Rejected e, log_request (login_request payload w) w)
    end.
Proof.
  run_method. unfold login_request.
  destruct (network (sent w) _) as [response|e]; [| reflexivity].
  rewrite handleResponse_run. now destruct (handled response).
Qed.

(** What both sign-in methods do, from their run equation. *)
Lemma sign_in_outcome (run : Settled Json * World) (w : World) (req : Request) :
  run =
    match network (sent w) req with
    | Fulfilled response =>
        match handled response with
        | Fulfilled data =>
            (Fulfilled data, setToken (Some (token_of data)) (log_request req w))
        | Rejected e => (Rejected e, log_request req w)
        end
    | Rejected e => (Rejected e, log_request req w)
    end ->
  (forall (response : Response Json) (data : Json),
     network (sent w) req = Fulfilled response ->
     ok response = true -> json response = Fulfilled data ->
     fst run = Fulfilled data /\
     snd run = setToken (Some (token_of data)) (log_request req w) /\
     getToken (snd run) = Some (token_of data) /\
     (localStorage w <> None -> token_of data <> "" ->
      stored_token (snd run) = Some (token_of data))) /\
  (forall e : Exn,
     fst run = Rejected e ->
     getToken (snd run) = getToken w /\ localStorage (snd run) = localStorage w).
Proof.
  intros ->. split.
  - intros response data Hnet Hok Hj. rewrite Hnet. unfold handled. rewrite Hok, Hj.
    simpl. rewrite getToken_setToken.
    split; [reflexivity | split; [reflexivity | split; [reflexivity |]]].
    intros Hst Hne. rewrite stored_token_setToken by exact Hst.
    simpl. now destruct (token_of data).
  - intros e. destruct (network (sent w) req) as [response|e'].
    + destruct (handled response); simpl; [discriminate | auto].
    + simpl. auto.
Qed.

(** C6.  [signup] and [login]: when the server answers with a 2xx response
    whose body parses, the method is fulfilled with that whole body, and the
    body's [token] has been stored with [setToken] by then (in memory, and in
    storage where there is one and the token is not empty); when the method
    rejects, the token in memory and the storage are as they were. *)
Theorem signup_and_login_store_the_token (w : World) :
  (forall (payload : SignupPayload) (response : Response Json) (data : Json),
     network (sent w) (signup_request payload w) = Fulfilled response ->
     ok response = true -> json response = Fulfilled data ->
     fst (signup payload w) = Fulfilled data /\
     snd (signup payload w) =
       setToken (Some (token_of data)) (log_request (signup_request payload w) w) /\
     getToken (snd (signup payload w)) = Some (token_of data) /\
     (localStorage w <> None -> token_of data <> "" ->
      stored_token (snd (signup payload w)) = Some (token_of data))) /\
  (forall (payload : SignupPayload) (e : Exn),
     fst (signup payload w) = Rejected e ->
     getToken (snd (signup payload w)) = getToken w /\
     localStorage (snd (signup payload w)) = localStorage w) /\
  (forall (payload : LoginPayload) (response : Response Json) (data : Json),
     network (sent w) (login_request payload w) = Fulfilled response ->
     ok response = true -> json response = Fulfilled data ->
     fst (login payload w) = Fulfilled data /\
     snd (login payload w) =
       setToken (Some (token_of data)) (log_request (login_request payload w) w) /\
     getToken (snd (login payload w)) = Some (token_of data) /\
     (localStorage w <> None -> token_of data <> "" ->
      stored_token (snd (login payload w)) = Some (token_of data))) /\
  (forall (payload : LoginPayload) (e : Exn),
     fst (login payload w) = Rejected e ->
     getToken (snd (login payload w)) = getToken w /\
     localStorage (snd (login payload w)) = localStorage w).
Proof.
  split; [| split; [| split]].
  - intros payload. exact (proj1 (sign_in_outcome _ w _ (signup_run payload w))).
  - intros payload. exact (proj2 (sign_in_outcome _ w _ (signup_run payload w))).
  - intros payload. exact (proj1 (sign_in_outcome _ w _ (login_run payload w))).
  - intros payload. exact (proj2 (sign_in_outcome _ w _ (login_run payload w))).
Qed.

End Running.

(** ** The client against the sample servers *)

(** A rejected date-range validation. *)
Lemma error_response_is_thrown_witness :
  fst (@call (sample_env (always (Fulfilled bad_request)) false) _
         (ValidateDateRange "2024-02-01" "2024-01-01") signed_in)
    = Rejected (Error "Invalid date range").
Proof.
  apply (proj1 (@error_response_is_thrown (sample_env (always (Fulfilled bad_request)) false) _
                  (ValidateDateRange "2024-02-01" "2024-01-01") signed_in
                  bad_request bad_request bad_request
                  eq_refl eq_refl eq_refl
                  ltac:(intros req2 H; discriminate H)
                  (or_introl (conj eq_refl (or_introl eq_refl))))
           (ErrorBody "bad_request" (Some "Invalid date range")) "Invalid date range"
           eq_refl eq_refl).
  discriminate.
Defined.

(** C2 as stated fails for [logout], which is fulfilled on the very response
    of the claim, and for a body whose [message] is the empty string, where
    the error carries the generic text and not the field. *)
Lemma logout_does_not_throw_on_error_response :
  fst (@call (sample_env (always (Fulfilled bad_request)) false) _ Logout signed_in)
    = Fulfilled tt /\
  fst (@call (sample_env
                (always (Fulfilled {| status := 400;
                                      json := Fulfilled (ErrorBody "bad_request" (Some "")) |}))
                false) _ GetCurrentUser signed_in)
    = Rejected (Error "An error occurred").
Proof. split; vm_compute; reflexivity. Qed.

(** A signed-in session whose logout request is answered with status 400. *)
Lemma logout_ignores_the_response_witness :
  fst (@logout (sample_env (always (Fulfilled bad_request)) false) signed_in) = Fulfilled tt /\
  getToken (snd (@logout (sample_env (always (Fulfilled bad_request)) false) signed_in)) = None /\
  stored_token (snd (@logout (sample_env (always (Fulfilled bad_request)) false) signed_in)) = None.
Proof.
  destruct (@logout_ignores_the_response (sample_env (always (Fulfilled bad_request)) false)
              signed_in bad_request ltac:(discriminate) eq_refl) as (H1 & H2 & H3 & _).
  repeat split; assumption.
Defined.

(** A signed-in session whose logout request cannot reach the server. *)
Lemma logout_clears_the_session_witness :
  @logout (sample_env (always (Rejected failed_to_fetch)) false) signed_in
    = (Rejected failed_to_fetch,
       log_request (logout_request signed_in) signed_in) /\
  In ("Authorization", "Bearer abc123") (headers (logout_request signed_in)).
Proof.
  destruct (@logout_clears_the_session (sample_env (always (Rejected failed_to_fetch)) false)
              signed_in) as (H1 & _ & _ & H4).
  split.
  - exact (proj1 (H4 failed_to_fetch eq_refl eq_refl)).
  - exact (proj2 (proj2 (H1 "abc123" eq_refl ltac:(discriminate)))).
Defined.

(** C1 as stated fails when the [fetch] of [logout] rejects: [logout] rejects
    with the transport failure, and the token stays in memory and in
    storage.  Besides, a token that is the empty string is present
    ([isAuthenticated()] is true) and yet no request is sent for it. *)
Lemma logout_throws_when_fetch_rejects :
  fst (@logout (sample_env (always (Rejected failed_to_fetch)) false) signed_in)
    = Rejected failed_to_fetch /\
  getToken (snd (@logout (sample_env (always (Rejected failed_to_fetch)) false) signed_in))
    = Some "abc123" /\
  stored_token (snd (@logout (sample_env (always (Rejected failed_to_fetch)) false) signed_in))
    = Some "abc123" /\
  isAuthenticated (snd (@logout (sample_env (always (Rejected failed_to_fetch)) false) signed_in))
    = true /\
  isAuthenticated (sample_world (Some "") (Some ∅)) = true /\
  sent (snd (@logout (sample_env (always (Fulfilled bad_request)) false)
               (sample_world (Some "") (Some ∅)))) = [].
Proof. repeat split; vm_compute; reflexivity. Qed.

(** The forecast endpoint is down while the current-weather one answers. *)
Lemma getWeatherByCoordinates_joins_both_legs_witness :
  (exists e : Exn,
     fst (@getWeatherByCoordinates (sample_env (weather_server ["/forecast?"]) false)
            14%float 121%float None signed_out) = Rejected e) /\
  fst (@getWeatherByCoordinates (sample_env (weather_server []) false)
         14%float 121%float None signed_out)
    = Fulfilled (@Build_CoordinatesWeather (sample_env (weather_server []) false)
                   (WeatherBody "Clear sky") (ForecastList ["Mon"; "Tue"])).
Proof.
  split.
  - destruct (@getWeatherByCoordinates_joins_both_legs
                (sample_env (weather_server ["/forecast?"]) false)
                14%float 121%float None signed_out) as (_ & _ & _ & _ & _ & H).
    exact (H failed_to_fetch (or_intror eq_refl)).
  - destruct (@getWeatherByCoordinates_joins_both_legs
                (sample_env (weather_server []) false)
                14%float 121%float None signed_out) as (_ & _ & _ & H & _).
    exact H.
Defined.

(** A first sign-up, and a login that the server turns down. *)
Lemma signup_and_login_store_the_token_witness :
  fst (@signup (sample_env (weather_server []) false) ana_signup signed_out)
    = Fulfilled (AuthBody "tok-1" "ana") /\
  getToken (snd (@signup (sample_env (weather_server []) false) ana_signup signed_out))
    = Some "tok-1" /\
  getToken (snd (@login (sample_env (always (Fulfilled bad_request)) false) ana_login signed_in))
    = Some "abc123".
Proof.
  destruct (@signup_and_login_store_the_token
              (sample_env (weather_server []) false) signed_out) as (H1 & _).
  destruct (H1 ana_signup _ (AuthBody "tok-1" "ana") eq_refl eq_refl eq_refl)
    as (Ha & _ & Hb & _).
  destruct (@signup_and_login_store_the_token
              (sample_env (always (Fulfilled bad_request)) false) signed_in)
    as (_ & _ & _ & H4).
  split; [exact Ha | split; [exact Hb |]].
  exact (proj1 (H4 ana_login (Error "Invalid date range") eq_refl)).
Defined.

End ApiClientSpec.

(* ===================================================================== *)
(** * More on the session store and the network methods                   *)
(* ===================================================================== *)

Module ApiCallsSpec.

Import ApiClient ApiCalls ApiClientSpec.

(** Unfolds a method down to the outcome of its [fetch]. *)
Ltac run_call :=
  lazy beta iota zeta delta
    [call searchLocation getCurrentWeather getForecast getHourlyForecast
     getCompleteWeather getWeatherByCoordinates signup login logout getCurrentUser
     validateLocation validateDateRange createWeatherRequest getWeatherRequests
     getWeatherRequestById updateWeatherRequest deleteWeatherRequest
     Promise_all bind get_this fetch ret await throw fst snd].

(** Case analysis on the outcome of every [fetch] in the goal and on what
    [handleResponse] makes of the response. *)
Ltac by_responses :=
  repeat match goal with
         | |- context [network ?h ?r] =>
             let o := fresh "outcome" in
             destruct (network h r) as [?response|?failure] eqn:o;
             rewrite ?handleResponse_run; lazy beta iota zeta delta [fst snd]
         end;
  repeat match goal with
         | |- context [handled ?r] => destruct (handled r)
         end.

(** X1.  Of two [setToken] calls in a row only the second counts: the
    client and the storage end as if the first had not been made. *)
Theorem setToken_last_write_wins (t1 t2 : option string) (w : World) :
  setToken t2 (setToken t1 w) = setToken t2 w.
Proof.
  destruct w as [c [st|] reqs]; unfold setToken, set_token, set_storage; simpl.
  - destruct t1 as [s1|]; [destruct (Js.truthy_string s1) |]; simpl;
      (destruct t2 as [s2|]; [destruct (Js.truthy_string s2) |]); simpl;
      rewrite ?insert_insert_eq, ?delete_insert_eq, ?insert_delete_eq, ?delete_delete_eq;
      reflexivity.
  - reflexivity.
Qed.

Lemma baseUrl_setToken (t : option string) (w : World) :
  baseUrl (this (setToken t w)) = baseUrl (this w).
Proof.
  destruct w as [c [st|] reqs]; unfold setToken; simpl; [| reflexivity].
  destruct t as [s|]; [destruct (Js.truthy_string s) |]; reflexivity.
Qed.

Section Calls.

Context {env : Environment}.

(** Every call appends its requests to those sent before, as many as
    [request_count] says and with the headers of [headers_of]; it keeps the
    base URL, and unless it is one that calls [setToken] it keeps the token
    and the storage. *)
Lemma call_effects {A} (c : ApiCall A) (w : World) :
  exists new : list Request,
    sent (snd (call c w)) = sent w ++ new /\
    length new = request_count c w /\
    Forall (fun req => headers req = headers_of c w) new /\
    baseUrl (this (snd (call c w))) = baseUrl (this w) /\
    (calls_setToken c = false ->
     this (snd (call c w)) = this w /\ localStorage (snd (call c w)) = localStorage w).
Proof.
  destruct c; unfold request_count, headers_of, sends_auth_headers, calls_setToken;
    try (run_call; by_responses; simpl;
         rewrite ?sent_setToken, ?baseUrl_setToken; simpl;
         eexists; (split; [reflexivity |]);
         (split; [reflexivity |]); (split; [repeat constructor |]);
         (split; [reflexivity |]); (intros; try discriminate; split; reflexivity)).
  - (* getWeatherByCoordinates *)
    run_call. by_responses; simpl; eexists; rewrite <- ?app_assoc;
      (split; [reflexivity |]); simpl; (split; [reflexivity |]);
      (split; [repeat constructor |]); (split; [reflexivity |]);
      (intros; split; reflexivity).
  - (* logout *)
    unfold call. rewrite logout_run.
    destruct (truthy_nullable (getToken w)).
    + exists [logout_request w].
      destruct (network (sent w) (logout_request w)); simpl;
        rewrite ?sent_setToken, ?baseUrl_setToken; simpl;
        repeat split; try reflexivity; try (repeat constructor); discriminate.
    + exists []. simpl. rewrite sent_setToken, baseUrl_setToken, app_nil_r.
      repeat split; try constructor; discriminate.
Qed.

Lemma new_requests_eq {A} (c : ApiCall A) (w : World) (new : list Request) :
  sent (snd (call c w)) = sent w ++ new -> new_requests c w = new.
Proof.
  intros E. unfold new_requests. rewrite E.
  rewrite skipn_app, skipn_all, Nat.sub_diag. reflexivity.
Qed.

Lemma getAuthHeaders_authorization (c : Client) :
  (forall t : string,
     token c = Some t -> t <> "" ->
     getAuthHeaders c = [("Content-Type", "application/json");
                         ("Authorization", "Bearer " +:+ t)]) /\
  (truthy_nullable (token c) = false ->
   getAuthHeaders c = [("Content-Type", "application/json")]).
Proof.
  unfold getAuthHeaders, truthy_nullable. split.
  - intros t -> Hne. now destruct t.
  - destruct (token c) as [s|]; [| reflexivity]. now intros ->.
Qed.

(** X2.  Whatever the server answers, a call sends exactly its requests and
    leaves the earlier ones in place: two for [getWeatherByCoordinates], one
    for [logout] with a non-empty token and none without, one for every other
    method.  No call changes the base URL, and only [signup], [login] and
    [logout] can change the token or the storage. *)
Theorem calls_send_their_requests_only {A} (c : ApiCall A) (w : World) :
  sent (snd (call c w)) = sent w ++ new_requests c w /\
  length (new_requests c w) = request_count c w /\
  baseUrl (this (snd (call c w))) = baseUrl (this w) /\
  (calls_setToken c = false ->
   getToken (snd (call c w)) = getToken w /\
   localStorage (snd (call c w)) = localStorage w).
Proof.
  destruct (call_effects c w) as (new & Hsent & Hlen & _ & Hurl & Hframe).
  rewrite (new_requests_eq c w new Hsent).
  repeat split; try assumption.
  - unfold getToken. now rewrite (proj1 (Hframe H)).
  - exact (proj2 (Hframe H)).
Qed.

(** X3.  [getCurrentUser] and the five stored-request methods always send
    their one request, with the headers of [getAuthHeaders]: it carries
    [Authorization: Bearer <token>] when the token is a non-empty string,
    and no [Authorization] header when the token is null or empty.
    [logout] sends its request, with that header, when the token is a
    non-empty string, and sends nothing when the token is null or empty.
    No request of any other method ever carries an [Authorization]
    header. *)
Theorem authorization_header_placement {A} (c : ApiCall A) (w : World) :
  (sends_auth_headers c = true -> is_logout c = false ->
   new_requests c w = [request_of c w] /\
   headers (request_of c w) = getAuthHeaders (this w) /\
   (forall t : string,
      getToken w = Some t -> t <> "" ->
      In ("Authorization", "Bearer " +:+ t) (headers (request_of c w))) /\
   (truthy_nullable (getToken w) = false ->
    has_authorization (headers (request_of c w)) = false)) /\
  (is_logout c = true ->
   (forall t : string,
      getToken w = Some t -> t <> "" ->
      new_requests c w = [logout_request w] /\
      In ("Authorization", "Bearer " +:+ t) (headers (logout_request w))) /\
   (truthy_nullable (getToken w) = false -> new_requests c w = [])) /\
  (sends_auth_headers c = false ->
   forall req : Request,
     In req (new_requests c w) -> has_authorization (headers req) = false).
Proof.
  split; [| split].
  - intros Hc Hl.
    assert (Hh : headers (request_of c w) = getAuthHeaders (this w)).
    { destruct c; try discriminate Hc; try discriminate Hl; reflexivity. }
    split; [| split; [exact Hh | split]].
    + apply new_requests_eq. rewrite (call_sends c w Hl).
      destruct c; try discriminate Hc; reflexivity.
    + intros t Ht Hne. rewrite Hh.
      rewrite (proj1 (getAuthHeaders_authorization (this w)) t Ht Hne). simpl. auto.
    + intros Hf. rewrite Hh.
      now rewrite (proj2 (getAuthHeaders_authorization (this w)) Hf).
  - intros Hl. destruct c; try discriminate Hl. split.
    + intros t Ht Hne. split.
      * apply new_requests_eq. unfold call. rewrite logout_run, Ht.
        replace (truthy_nullable (Some t)) with true by (now destruct t).
        destruct (network (sent w) (logout_request w)); simpl;
          rewrite ?sent_setToken; reflexivity.
      * unfold logout_request. cbn [headers].
        rewrite (proj1 (getAuthHeaders_authorization (this w)) t Ht Hne). simpl. auto.
    + intros Hf. apply new_requests_eq. unfold call. rewrite logout_run, Hf.
      simpl. now rewrite sent_setToken, app_nil_r.
  - intros Hc req Hin.
    destruct (call_effects c w) as (new & Hsent & _ & Hall & _).
    rewrite (new_requests_eq c w new Hsent) in Hin.
    rewrite Forall_forall in Hall.
    rewrite (Hall req (proj2 (list_elem_of_In _ _) Hin)). unfold headers_of.
    rewrite Hc. now destruct (calls_setToken c).
Qed.

(** X4.  Every method but [logout], request by request: when the server
    answers the request of the method with a 2xx response, the method
    returns the parsed body as it is, whatever that body holds;
    [getWeatherByCoordinates], whose two requests are answered with two
    2xx responses, returns the body of the response to its current-weather
    request as [current] and the [forecast] field of the body of the
    response to its forecast request as [forecast].  When the body of a 2xx
    response does not parse, the method rejects with the parse failure. *)
Theorem ok_response_is_returned {A} (c : ApiCall A) (w : World)
    (response1 response2 : Response Json) :
  is_logout c = false ->
  network (sent w) (request_of c w) = Fulfilled response1 ->
  (forall req2 : Request,
     second_request c w = Some req2 ->
     network (sent w ++ [request_of c w]) req2 = Fulfilled response2) ->
  ok response1 = true ->
  (second_request c w <> None -> ok response2 = true) ->
  (forall data1 data2 : Json,
     json response1 = Fulfilled data1 ->
     (second_request c w <> None -> json response2 = Fulfilled data2) ->
     fst (call c w) = Fulfilled (from_bodies c data1 data2)) /\
  (forall e : Exn,
     json response1 = Rejected e ->
     (second_request c w <> None -> exists data2 : Json, json response2 = Fulfilled data2) ->
     fst (call c w) = Rejected e) /\
  (forall (data1 : Json) (e : Exn),
     second_request c w <> None ->
     json response1 = Fulfilled data1 -> json response2 = Rejected e ->
     fst (call c w) = Rejected e).
Proof.
  intros Hc H1 H2 Hok1 Hok2.
  assert (Hh1 : handled response1 = json response1)
    by (unfold handled; now rewrite Hok1).
  assert (Hh2 : second_request c w <> None -> handled response2 = json response2)
    by (intros Hsnd; unfold handled; now rewrite (Hok2 Hsnd)).
  split; [| split].
  - intros data1 data2 Hj1 Hj2.
    apply (call_returns c w response1 response2); try assumption.
    + now rewrite Hh1.
    + intros Hsnd. now rewrite (Hh2 Hsnd), (Hj2 Hsnd).
  - intros e Hj1 Hj2.
    apply (call_rejects c w response1 response2); try assumption.
    left. split; [now rewrite Hh1 |].
    destruct (second_request c w) as [req2|] eqn:Hsnd; [| now left].
    right; right. destruct (Hj2 ltac:(discriminate)) as [data2 Hd].
    exists data2. now rewrite (Hh2 ltac:(discriminate)).
  - intros data1 e Hsnd Hj1 Hj2.
    apply (call_rejects c w response1 response2); try assumption.
    right. split; [assumption | split].
    + exists data1. now rewrite Hh1.
    + now rewrite (Hh2 Hsnd).
Qed.

(** X5.  After a [login] or a [signup] that the server accepted with a
    non-empty token, every method that sends the auth headers sends that new
    token, and it does send a request. *)
Theorem accepted_token_is_sent_next {A} (c : ApiCall A) (w : World)
    (response : Response Json) (data : Json) :
  ok response = true -> json response = Fulfilled data -> token_of data <> "" ->
  sends_auth_headers c = true ->
  (forall payload : LoginPayload,
     network (sent w) (login_request payload w) = Fulfilled response ->
     new_requests c (snd (login payload w)) <> [] /\
     forall req : Request,
       In req (new_requests c (snd (login payload w))) ->
       In ("Authorization", "Bearer " +:+ token_of data) (headers req)) /\
  (forall payload : SignupPayload,
     network (sent w) (signup_request payload w) = Fulfilled response ->
     new_requests c (snd (signup payload w)) <> [] /\
     forall req : Request,
       In req (new_requests c (snd (signup payload w))) ->
       In ("Authorization", "Bearer " +:+ token_of data) (headers req)).
Proof.
  intros Hok Hj Hne Hc.
  assert (Hnext : forall w1 : World,
            getToken w1 = Some (token_of data) ->
            new_requests c w1 <> [] /\
            forall req : Request,
              In req (new_requests c w1) ->
              In ("Authorization", "Bearer " +:+ token_of data) (headers req)).
  { intros w1 Ht.
    destruct (call_effects c w1) as (new & Hsent & Hlen & Hall & _).
    rewrite (new_requests_eq c w1 new Hsent). split.
    - intros ->. simpl in Hlen. revert Hlen. unfold request_count.
      destruct c; try discriminate; try discriminate Hc.
      rewrite Ht. simpl. destruct (token_of data); [congruence | discriminate].
    - intros req Hin. rewrite Forall_forall in Hall. rewrite (Hall req (proj2 (list_elem_of_In _ _) Hin)).
      unfold headers_of. rewrite Hc.
      rewrite (proj1 (getAuthHeaders_authorization (this w1)) _ Ht Hne). simpl. auto. }
  split; intros payload Hnet; apply Hnext.
  - destruct (sign_in_outcome _ w _ (login_run payload w)) as [H _].
    exact (proj1 (proj2 (proj2 (H response data Hnet Hok Hj)))).
  - destruct (sign_in_outcome _ w _ (signup_run payload w)) as [H _].
    exact (proj1 (proj2 (proj2 (H response data Hnet Hok Hj)))).
Qed.

(** X6.  After a [logout] that was fulfilled, a second [logout] does
    nothing at all: it sends no request and leaves the client, the storage
    and the requests sent as they are.  After a [logout] that was rejected,
    the token is still there and a second [logout] sends the request again. *)
Theorem second_logout_is_a_no_op (w : World) :
  (fst (logout w) = Fulfilled tt ->
   logout (snd (logout w)) = (Fulfilled tt, snd (logout w))) /\
  (forall e : Exn,
     fst (logout w) = Rejected e ->
     getToken (snd (logout w)) = getToken w /\
     length (new_requests Logout (snd (logout w))) = 1%nat).
Proof.
  split.
  - intros Hok.
    assert (E : exists w', snd (logout w) = setToken None w').
    { rewrite logout_run in *. destruct (truthy_nullable (getToken w)); [| now eexists].
      destruct (network (sent w) (logout_request w)); [now eexists | discriminate Hok]. }
    destruct E as [w' ->].
    rewrite logout_run, getToken_setToken. simpl.
    now rewrite setToken_last_write_wins.
  - intros e He. rewrite logout_run in *.
    destruct (truthy_nullable (getToken w)) eqn:Ht; [| discriminate He].
    destruct (network (sent w) (logout_request w)); [discriminate He |].
    simpl. split; [reflexivity |].
    destruct (call_effects Logout (log_request (logout_request w) w))
      as (new & Hsent & Hlen & _).
    rewrite (new_requests_eq _ _ new Hsent), Hlen. simpl.
    change (getToken (log_request (logout_request w) w)) with (getToken w).
    now rewrite Ht.
Qed.

End Calls.

(** ** On the sample servers *)

(** A signed-in client asks for its stored requests. *)
Lemma authorization_header_placement_witness :
  @new_requests (sample_env (always (Fulfilled bad_request)) false) _
    (GetWeatherRequests None None None) signed_in
    = [{| url := "http://localhost:8000/api/weather/weather-requests?limit=50&offset=0";
          method := None;
          headers := [("Content-Type", "application/json");
                      ("Authorization", "Bearer abc123")];
          body := None |}] /\
  @new_requests (sample_env (always (Fulfilled bad_request)) false) _ Logout signed_out = [].
Proof.
  split.
  - exact (proj1 (proj1
      (@authorization_header_placement (sample_env (always (Fulfilled bad_request)) false)
         _ (GetWeatherRequests None None None) signed_in) eq_refl eq_refl)).
  - exact (proj2 (proj1 (proj2
      (@authorization_header_placement (sample_env (always (Fulfilled bad_request)) false)
         _ Logout signed_out)) eq_refl) eq_refl).
Defined.

(** The two legs of a lookup by coordinates get two different bodies. *)
Lemma ok_response_is_returned_witness :
  fst (@call (sample_env (weather_server []) false) _
         (GetWeatherByCoordinates 14%float 121%float None) signed_out)
    = Fulfilled (@Build_CoordinatesWeather (sample_env (weather_server []) false)
                   (WeatherBody "Clear sky") (ForecastList ["Mon"; "Tue"])).
Proof.
  exact (proj1
    (@ok_response_is_returned (sample_env (weather_server []) false) _
       (GetWeatherByCoordinates 14%float 121%float None) signed_out
       {| status := 200; json := Fulfilled (WeatherBody "Clear sky") |}
       {| status := 200; json := Fulfilled (ForecastBody ["Mon"; "Tue"] "Asia/Manila") |}
       eq_refl eq_refl
       ltac:(intros req2 H; injection H as <-; reflexivity)
       eq_refl (fun _ => eq_refl))
    (WeatherBody "Clear sky") (ForecastBody ["Mon"; "Tue"] "Asia/Manila")
    eq_refl (fun _ => eq_refl)).
Defined.

Lemma accepted_token_is_sent_next_witness :
  @new_requests (sample_env (weather_server []) false) _ GetCurrentUser
    (snd (@login (sample_env (weather_server []) false) ana_login signed_out)) <> [] /\
  In ("Authorization", "Bearer tok-1")
     (headers {| url := "http://localhost:8000/api/weather/auth/me";
                 method := None;
                 headers := [("Content-Type", "application/json");
                             ("Authorization", "Bearer tok-1")];
                 body := None |}).
Proof.
  destruct (proj1
    (@accepted_token_is_sent_next (sample_env (weather_server []) false) _ GetCurrentUser
       signed_out {| status := 200; json := Fulfilled (AuthBody "tok-1" "ana") |}
       (AuthBody "tok-1" "ana") eq_refl eq_refl ltac:(discriminate) eq_refl)
    ana_login eq_refl) as [H1 H2].
  split; [exact H1 | exact (H2 _ (or_introl eq_refl))].
Defined.

Lemma second_logout_is_a_no_op_witness :
  @logout (sample_env (always (Fulfilled bad_request)) false)
    (snd (@logout (sample_env (always (Fulfilled bad_request)) false) signed_in))
  = (Fulfilled tt, snd (@logout (sample_env (always (Fulfilled bad_request)) false) signed_in)).
Proof.
  exact (proj1 (@second_logout_is_a_no_op (sample_env (always (Fulfilled bad_request)) false)
                  signed_in) eq_refl).
Defined.

End ApiCallsSpec.

(* ===================================================================== *)
(** * Properties of the position adapter                                  *)
(* ===================================================================== *)

Module GeolocationAdapterSpec.

Import ApiClient GeolocationAdapter.

Lemma position_error_message_cases (code : Z) :
  position_error_message code =
    "Unable to access your location. Please enable location permissions in your browser settings."
  /\ error_kind code = Denied \/
  position_error_message code =
    "Unable to access your location. Location information is unavailable."
  /\ error_kind code = Unavailable \/
  position_error_message code = "Unable to access your location. Location request timed out."
  /\ error_kind code = TimedOut \/
  position_error_message code = "Unable to access your location. An unknown error occurred."
  /\ error_kind code = Unknown.
Proof.
  unfold position_error_message, error_kind.
  destruct (code =? PERMISSION_DENIED)%Z; [now left |].
  destruct (code =? POSITION_UNAVAILABLE)%Z; [now right; left |].
  destruct (code =? TIMEOUT)%Z; [now right; right; left | now right; right; right].
Qed.

(** X7.  [getCurrentPosition] rejects with [Geolocation is not supported by
    your browser] exactly when [isGeolocationSupported()] is false; no answer
    of a platform that has the API is turned into that error. *)
Theorem unsupported_exactly_without_api (navigator : Navigator) :
  getCurrentPosition navigator
    = Some (Rejected (Error "Geolocation is not supported by your browser"))
  <-> isGeolocationSupported navigator = false.
Proof.
  unfold getCurrentPosition, isGeolocationSupported.
  destruct (geolocation navigator) as [api|]; split; try reflexivity; try discriminate.
  intros H. exfalso.
  destruct (api _) as [|[position|code] rest]; simpl in H; try discriminate H.
  injection H as H.
  destruct (position_error_message_cases code) as [[E _]|[[E _]|[[E _]|[E _]]]];
    rewrite E in H; discriminate H.
Qed.

(** X8.  The message of the error callback tells the kind of failure: two
    error codes give the same message exactly when they are of the same kind
    (permission denied, position unavailable, timeout, or anything else), and
    every message starts with [Unable to access your location. ]. *)
Theorem error_message_tells_the_kind (code1 code2 : Z) :
  (position_error_message code1 = position_error_message code2
   <-> error_kind code1 = error_kind code2) /\
  String.prefix "Unable to access your location. " (position_error_message code1) = true.
Proof.
  destruct (position_error_message_cases code1) as [[E1 K1]|[[E1 K1]|[[E1 K1]|[E1 K1]]]];
    destruct (position_error_message_cases code2) as [[E2 K2]|[[E2 K2]|[[E2 K2]|[E2 K2]]]];
    rewrite E1, E2, K1, K2; (split; [split; intros H; (reflexivity || discriminate H) |
                                     reflexivity]).
Qed.

(** X9.  With the API present, the promise is fulfilled with a position
    exactly when the platform's first callback is the success callback with
    that position, and it stays pending exactly when the platform never calls
    back: the adapter has no timer of its own.  The platform is always asked
    with high accuracy, a timeout of 10000 and a maximum age of 0. *)
Theorem first_callback_settles_the_promise (navigator : Navigator)
    (api : PositionOptions -> list PositionCallback) :
  geolocation navigator = Some api ->
  let calls := api {| enableHighAccuracy := true; timeout := 10000; maximumAge := 0 |} in
  (forall position : GeolocationPosition,
     getCurrentPosition navigator = Some (Fulfilled position)
     <-> exists rest, calls = OnSuccess position :: rest) /\
  (getCurrentPosition navigator = None <-> calls = []) /\
  (forall code rest,
     calls = OnError code :: rest ->
     getCurrentPosition navigator = Some (Rejected (Error (position_error_message code)))).
Proof.
  intros Hapi calls. unfold getCurrentPosition. rewrite Hapi. fold calls.
  split; [| split].
  - intros position. split.
    + destruct calls as [|[p|code] rest]; simpl; intros H; try discriminate H.
      injection H as ->. now exists rest.
    + now intros [rest ->].
  - destruct calls as [|cb rest]; simpl; split; intros H; (reflexivity || discriminate H).
  - now intros code rest ->.
Qed.

(** A platform that reports an error first and a position afterwards. *)
Lemma first_callback_settles_the_promise_witness :
  getCurrentPosition (navigator_calling [OnError 3; OnSuccess manila])
    = Some (Rejected (Error "Unable to access your location. Location request timed out.")).
Proof.
  exact (proj2 (proj2
    (first_callback_settles_the_promise (navigator_calling [OnError 3; OnSuccess manila])
       (fun _ => [OnError 3; OnSuccess manila]) eq_refl)) 3%Z [OnSuccess manila] eq_refl).
Defined.

End GeolocationAdapterSpec.

(* ===================================================================== *)
(** * More on the export formatters                                       *)
(* ===================================================================== *)

Module ExportChecksSpec.

Import Model ExportUtils ExportChecks JsFacts.

Lemma well_escaped_escape_char (a : ascii) (t : string) :
  well_escaped (escape_char a +:+ t) = well_escaped t.
Proof. destruct a as [[] [] [] [] [] [] [] []]; destruct t; reflexivity. Qed.

(** X10.  Whatever the text, [escapeXml] leaves no [<], [>], double quote
    or apostrophe in it, and every [&] of the result starts one of [&amp;],
    [&lt;], [&gt;], [&quot;], [&apos;]. *)
Theorem escapeXml_is_well_escaped (s : string) : well_escaped (escapeXml s) = true.
Proof.
  rewrite escapeXml_one_pass.
  induction s as [|a s IH]; [reflexivity |].
  change (escape_each (String a s)) with (escape_char a +:+ escape_each s).
  now rewrite well_escaped_escape_char.
Qed.

Lemma escape_char_cases (a : ascii) :
  a = "&"%char /\ escape_char a = "&amp;" \/
  a = "<"%char /\ escape_char a = "&lt;" \/
  a = ">"%char /\ escape_char a = "&gt;" \/
  a = ascii_of_nat 34 /\ escape_char a = "&quot;" \/
  a = "'"%char /\ escape_char a = "&apos;" \/
  a <> "&"%char /\ escape_char a = String a EmptyString.
Proof.
  unfold escape_char.
  destruct (Ascii.eqb_spec a "&"); [now left |].
  destruct (Ascii.eqb_spec a "<"); [now right; left |].
  destruct (Ascii.eqb_spec a ">"); [now right; right; left |].
  destruct (Ascii.eqb_spec a (ascii_of_nat 34)); [now right; right; right; left |].
  destruct (Ascii.eqb_spec a "'"); [now right; right; right; right; left |].
  now right; right; right; right; right.
Qed.

(** X11.  [escapeXml] loses nothing: two texts with the same escaped form
    are the same text. *)
Theorem escapeXml_is_injective (s1 s2 : string) :
  escapeXml s1 = escapeXml s2 -> s1 = s2.
Proof.
  rewrite !escapeXml_one_pass. revert s2.
  induction s1 as [|a s1 IH]; intros [|b s2];
    change (escape_each EmptyString) with EmptyString;
    try change (escape_each (String a s1)) with (escape_char a +:+ escape_each s1);
    try change (escape_each (String b s2)) with (escape_char b +:+ escape_each s2);
    intros H.
  - reflexivity.
  - exfalso.
    destruct (escape_char_cases b) as [[_ E]|[[_ E]|[[_ E]|[[_ E]|[[_ E]|[_ E]]]]]];
      rewrite E in H; discriminate H.
  - exfalso.
    destruct (escape_char_cases a) as [[_ E]|[[_ E]|[[_ E]|[[_ E]|[[_ E]|[_ E]]]]]];
      rewrite E in H; discriminate H.
  - destruct (escape_char_cases a) as [[Ha E]|[[Ha E]|[[Ha E]|[[Ha E]|[[Ha E]|[Ha E]]]]]];
      destruct (escape_char_cases b) as [[Hb F]|[[Hb F]|[[Hb F]|[[Hb F]|[[Hb F]|[Hb F]]]]]];
      rewrite E, F in H; rewrite ?append_cons, ?append_nil_l in H;
      try discriminate H;
      try (injection H as H; subst; f_equal; now apply IH);
      try (injection H as H1 H2; subst; congruence).
Qed.

(** Two ways to write the same notes. *)
Lemma escapeXml_is_injective_witness : "A & B <C>" = "A & B " +:+ "<C>".
Proof. exact (escapeXml_is_injective "A & B <C>" ("A & B " +:+ "<C>") eq_refl). Defined.

Lemma truthy_tpl_literal (a : ascii) (s : string) (l : list string) :
  Js.truthy_string (tpl (String a s :: l)) = true.
Proof. now rewrite tpl_cons. Qed.

Lemma csv_metadata_lines (p : float -> string) (request : WeatherRequest) :
  csv_metadata p request =
    Js.join Js.nl
      ([tpl ["# Weather Data for "; location_name request; ", "; country request];
        tpl ["# Date Range: "; start_date request; " to "; end_date request];
        tpl ["# Location: "; Js.Number_toString p (latitude request); ", ";
             Js.Number_toString p (longitude request)];
        tpl ["# Timezone: "; timezone request]]
       ++ (if Js.truthy_string (notes request)
           then [tpl ["# Notes: "; notes request]] else [])).
Proof.
  unfold csv_metadata. cbn [List.filter]. rewrite !truthy_tpl_literal.
  destruct (Js.truthy_string (notes request)).
  - now rewrite truthy_tpl_literal.
  - reflexivity.
Qed.

Lemma occurs_in_between (P L H R : string) :
  Js.occurs_in (L +:+ H) ((P +:+ L) +:+ H +:+ R).
Proof. exists P, R. now rewrite !append_assoc. Qed.

Lemma join_snoc (sep x y : string) (l : list string) :
  Js.join sep ((x :: l) ++ [y]) = (Js.join sep (x :: l) +:+ sep) +:+ y.
Proof.
  unfold Js.join. revert x. induction l as [|z l IH]; intros x.
  - cbn [app String.concat]. now rewrite append_assoc.
  - change (String.concat sep ((x :: z :: l) ++ [y]))
      with (x +:+ sep +:+ String.concat sep ((z :: l) ++ [y])).
    rewrite IH. change (String.concat sep (x :: z :: l))
      with (x +:+ sep +:+ String.concat sep (z :: l)).
    now rewrite !append_assoc.
Qed.

Lemma csv_headers_start :
  Js.join "," csv_headers =
    "Date,Temperature Max (°C)," +:+ Js.join "," (skipn 2 csv_headers).
Proof. vm_compute. reflexivity. Qed.

(** X12.  The metadata block of the CSV export has four lines, and a fifth
    with the notes when there are notes, joined by line breaks and with none
    at its end: the header row is written on the same line as the last
    metadata line (the time zone, or the notes), right after it. *)
Theorem csv_header_continues_the_metadata (p : float -> string) (request : WeatherRequest) :
  csv_metadata p request =
    Js.join Js.nl
      ([tpl ["# Weather Data for "; location_name request; ", "; country request];
        tpl ["# Date Range: "; start_date request; " to "; end_date request];
        tpl ["# Location: "; Js.Number_toString p (latitude request); ", ";
             Js.Number_toString p (longitude request)];
        tpl ["# Timezone: "; timezone request]]
       ++ (if Js.truthy_string (notes request)
           then [tpl ["# Notes: "; notes request]] else [])) /\
  Js.occurs_in
    ((if Js.truthy_string (notes request)
      then "# Notes: " +:+ notes request
      else "# Timezone: " +:+ timezone request)
     +:+ "Date,Temperature Max (°C),")
    (content (exportAsCSV p request)).
Proof.
  split; [apply csv_metadata_lines |].
  unfold exportAsCSV, downloadFile, content, csv_document.
  rewrite csv_metadata_lines, csv_headers_start, (append_assoc "Date,Temperature Max (°C),").
  destruct (Js.truthy_string (notes request)).
  - rewrite join_snoc.
    replace (tpl ["# Notes: "; notes request]) with ("# Notes: " +:+ notes request)
      by (now rewrite !tpl_cons, append_nil_r).
    apply occurs_in_between.
  - rewrite app_nil_r.
    match goal with
    | |- context [Js.join Js.nl [?a; ?b; ?c; ?d]] =>
        change [a; b; c; d] with ((a :: [b; c]) ++ [d])
    end.
    rewrite join_snoc.
    replace (tpl ["# Timezone: "; timezone request]) with ("# Timezone: " +:+ timezone request)
      by (now rewrite !tpl_cons, append_nil_r).
    apply occurs_in_between.
Qed.

(** X13.  A mean temperature that is there but is [0] (or [NaN]) is
    exported as if the day had none: no [temperatureMean] element in the XML,
    an empty field in the CSV row and [N/A] in the Markdown row. *)
Theorem falsy_mean_is_exported_as_missing (p : float -> string) (day : WeatherDataItem)
    (t : float) :
  temperature_mean day = Some t -> Js.truthy_number t = false ->
  xml_day p day = xml_day p (without_mean day) /\
  csv_row p day = csv_row p (without_mean day) /\
  markdown_row p day = markdown_row p (without_mean day) /\
  Js.occurs_in " | N/A | " (markdown_row p day).
Proof.
  intros Ht Hf.
  assert (Hm : truthy_mean day = None) by (unfold truthy_mean; now rewrite Ht, Hf).
  unfold xml_day, csv_row, markdown_row. rewrite Hm.
  split; [reflexivity | split; [reflexivity | split; [reflexivity |]]].
  match goal with
  | |- Js.occurs_in _ (tpl ?l) => exact (tpl_occurs_at 8 3 l)
  end.
Qed.

(** The day at freezing point, whose mean temperature is 0. *)
Lemma falsy_mean_is_exported_as_missing_witness :
  markdown_row Js.integral_toString freezing_day
    = markdown_row Js.integral_toString (without_mean freezing_day) /\
  Js.occurs_in " | N/A | " (markdown_row Js.integral_toString freezing_day).
Proof.
  destruct (falsy_mean_is_exported_as_missing Js.integral_toString freezing_day 0%float
              eq_refl eq_refl) as (_ & _ & H3 & H4).
  split; assumption.
Defined.

End ExportChecksSpec.

(* ===================================================================== *)
(** * Properties of the pages and components                              *)
(* ===================================================================== *)

Module PagesSpec.

Import ApiClient ApiCalls ApiClientSpec ApiCallsSpec GeolocationAdapter Pages.

Lemma or_else_not_empty (m : option string) (fallback : string) :
  fallback <> "" -> Js.or_else m fallback <> "".
Proof.
  intros Hf. unfold Js.or_else. destruct m as [s|]; [| exact Hf].
  destruct s; [exact Hf | discriminate].
Qed.

Lemma or_else_message (m fallback : string) : m <> "" -> Js.or_else (Some m) fallback = m.
Proof. intros Hm. now destruct m. Qed.

Lemma setToken_None_clears (w : World) :
  getToken (setToken None w) = None /\ stored_token (setToken None w) = None.
Proof. split; [apply getToken_setToken | apply stored_token_cleared]. Qed.

Section Handlers.

Context {env : Environment}.

(** What [getCurrentUser] leaves behind, whatever its outcome. *)
Lemma getCurrentUser_keeps_session (w : World) :
  getToken (snd (getCurrentUser w)) = getToken w /\
  localStorage (snd (getCurrentUser w)) = localStorage w /\
  length (sent (snd (getCurrentUser w))) = S (length (sent w)).
Proof.
  destruct (call_effects GetCurrentUser w) as (new & Hsent & Hlen & _ & _ & Hframe).
  change (call GetCurrentUser w) with (getCurrentUser w) in *.
  destruct (Hframe eq_refl) as [Hthis Hst].
  unfold getToken. rewrite Hthis, Hst, Hsent, length_app, Hlen. simpl.
  repeat split. lia.
Qed.

(** X14.  The weather data page, on mount: it counts the visitor as
    authenticated exactly when a token is present and [getCurrentUser] is
    fulfilled, and then neither redirects nor touches the token.  In every
    other case it redirects to [/auth].  When [getCurrentUser] rejects, for
    whatever reason (a transport failure too), the token is cleared in memory
    and in storage.  Without a token nothing is sent and the page keeps
    checking: [isCheckingAuth] stays true. *)
Theorem data_page_is_shown_for_an_accepted_token_only (w : World) :
  let ui := fst (DataPage.checkAuth DataPage.initial w) in
  let w' := snd (DataPage.checkAuth DataPage.initial w) in
  (DataPage.isAuthenticated ui = true <->
   ApiClient.isAuthenticated w = true /\ exists user, fst (getCurrentUser w) = Fulfilled user) /\
  (DataPage.isAuthenticated ui = true ->
   DataPage.pushed ui = [] /\ DataPage.isCheckingAuth ui = false /\
   getToken w' = getToken w /\ localStorage w' = localStorage w) /\
  (DataPage.isAuthenticated ui = false -> DataPage.pushed ui = ["/auth"]) /\
  (forall e : Exn,
     ApiClient.isAuthenticated w = true -> fst (getCurrentUser w) = Rejected e ->
     getToken w' = None /\ stored_token w' = None /\ DataPage.isCheckingAuth ui = false) /\
  (ApiClient.isAuthenticated w = false ->
   w' = w /\ DataPage.isCheckingAuth ui = true).
Proof.
  intros ui w'. subst ui w'. unfold DataPage.checkAuth.
  destruct (getCurrentUser_keeps_session w) as (Ht & Hst & _).
  destruct (ApiClient.isAuthenticated w); simpl.
  - destruct (getCurrentUser w) as [[user|e] w1]; simpl in *.
    + repeat split; eauto; try discriminate.
    + destruct (setToken_None_clears w1) as [H1 H2].
      repeat split; try discriminate; try assumption.
      * intros [_ [user H]]. discriminate H.
  - repeat split; try discriminate. intros [H _]. discriminate H.
Qed.


(** X15.  The landing page, on mount: it redirects to [/weather-data]
    exactly when a token is present and [getCurrentUser] is fulfilled, and
    redirects nowhere else.  When [getCurrentUser] rejects, the token is
    cleared in memory and in storage; without a token nothing is sent. *)
Theorem landing_page_redirects_for_an_accepted_token_only (pushed : list string) (w : World) :
  let pushed' := fst (Landing.checkAuth pushed w) in
  let w' := snd (Landing.checkAuth pushed w) in
  (pushed' = pushed ++ ["/weather-data"] <->
   ApiClient.isAuthenticated w = true /\ exists user, fst (getCurrentUser w) = Fulfilled user) /\
  (pushed' <> pushed ++ ["/weather-data"] -> pushed' = pushed) /\
  (forall e : Exn,
     ApiClient.isAuthenticated w = true -> fst (getCurrentUser w) = Rejected e ->
     getToken w' = None /\ stored_token w' = None) /\
  (ApiClient.isAuthenticated w = false -> w' = w).
Proof.
  intros pushed' w'. subst pushed' w'. unfold Landing.checkAuth.
  assert (Hne : pushed <> pushed ++ ["/weather-data"]).
  { intros E. apply (f_equal (@length string)) in E. rewrite length_app in E. simpl in E. lia. }
  destruct (ApiClient.isAuthenticated w); simpl.
  - destruct (getCurrentUser w) as [[user|e] w1]; simpl.
    + split; [split; eauto |]. split; [intros Hd; now destruct Hd |].
      split; [discriminate |]. discriminate.
    + destruct (setToken_None_clears w1) as [H1 H2].
      split; [split; [intros Hd; now destruct Hne | intros [_ [user Hu]]; discriminate Hu] |].
      split; [reflexivity |]. split; [now split |]. discriminate.
  - split; [split; [intros Hd; now destruct Hne | intros [Hd _]; discriminate Hd] |].
    split; [reflexivity |]. split; [discriminate | reflexivity].
Qed.

(** X16.  The Logout button: when [logout] is fulfilled the visitor is
    signed out (no token in memory or storage) and sent to [/]; when [logout]
    rejects, the rejection is left unhandled, there is no redirect, and the
    token stays in memory and in storage. *)
Theorem logout_button_redirects_after_a_fulfilled_logout_only (pushed : list string)
    (w : World) :
  let outcome := fst (fst (Navbar.onLogoutClick pushed w)) in
  let pushed' := snd (fst (Navbar.onLogoutClick pushed w)) in
  let w' := snd (Navbar.onLogoutClick pushed w) in
  outcome = fst (logout w) /\ w' = snd (logout w) /\
  (outcome = Fulfilled tt ->
   pushed' = pushed ++ ["/"] /\ ApiClient.isAuthenticated w' = false /\
   stored_token w' = None) /\
  (forall e : Exn,
     outcome = Rejected e ->
     pushed' = pushed /\ getToken w' = getToken w /\ stored_token w' = stored_token w).
Proof.
  intros outcome pushed' w'. subst outcome pushed' w'. unfold Navbar.onLogoutClick.
  rewrite logout_run.
  destruct (truthy_nullable (getToken w)).
  - destruct (network (sent w) (logout_request w)) as [response|e]; simpl.
    + repeat split; try discriminate.
      * unfold ApiClient.isAuthenticated.
        now rewrite (getToken_setToken None _ : token _ = None).
      * apply stored_token_cleared.
    + repeat split; discriminate.
  - simpl. repeat split; try discriminate.
    + unfold ApiClient.isAuthenticated.
      now rewrite (getToken_setToken None _ : token _ = None).
    + apply stored_token_cleared.
Qed.

End Handlers.

Section Dialog.

Context {env : Environment}.
Variable user_of : Json -> Json.

(** X17.  The account dialog, for [handleLogin] and [handleSignup] alike:
    the handler ends with [loading] false; when the method is fulfilled the
    error text is empty and [onSuccess], if given, gets the [user] of the
    response, once; when it rejects the error text is not empty (the
    message of the error, or a fixed text when that is empty), [onSuccess] is
    not called and the token is as before. *)
Theorem account_dialog_reports_the_outcome (has_onSuccess : bool) (w : World)
    (ui : AuthDialog.State) :
  (forall payload : LoginPayload,
     let r := AuthDialog.handleLogin user_of has_onSuccess payload ui w in
     AuthDialog.loading (fst (fst r)) = false /\
     snd r = snd (login payload w) /\
     (forall response : Json,
        fst (login payload w) = Fulfilled response ->
        AuthDialog.error (fst (fst r)) = "" /\
        snd (fst r) = (if has_onSuccess then [user_of response] else [])) /\
     (forall e : Exn,
        fst (login payload w) = Rejected e ->
        AuthDialog.error (fst (fst r)) <> "" /\
        (exn_message e <> "" -> AuthDialog.error (fst (fst r)) = exn_message e) /\
        snd (fst r) = [] /\ getToken (snd r) = getToken w)) /\
  (forall payload : SignupPayload,
     let r := AuthDialog.handleSignup user_of has_onSuccess payload ui w in
     AuthDialog.loading (fst (fst r)) = false /\
     snd r = snd (signup payload w) /\
     (forall response : Json,
        fst (signup payload w) = Fulfilled response ->
        AuthDialog.error (fst (fst r)) = "" /\
        snd (fst r) = (if has_onSuccess then [user_of response] else [])) /\
     (forall e : Exn,
        fst (signup payload w) = Rejected e ->
        AuthDialog.error (fst (fst r)) <> "" /\
        (exn_message e <> "" -> AuthDialog.error (fst (fst r)) = exn_message e) /\
        snd (fst r) = [] /\ getToken (snd r) = getToken w)).
Proof.
  split; intros payload r; subst r.
  - unfold AuthDialog.handleLogin.
    pose proof (proj2 (sign_in_outcome _ w _ (login_run payload w))) as Hkeep.
    destruct (login payload w) as [[response|e] w1]; cbn [fst snd AuthDialog.loading AuthDialog.error] in *.
    + split; [reflexivity | split; [reflexivity | split]].
      * intros r Hr. injection Hr as ->. now split.
      * discriminate.
    + split; [reflexivity | split; [reflexivity | split]].
      * discriminate.
      * intros e' He. injection He as <-.
        split; [apply or_else_not_empty; discriminate |].
        split; [apply or_else_message |].
        split; [reflexivity | exact (proj1 (Hkeep e eq_refl))].
  - unfold AuthDialog.handleSignup.
    pose proof (proj2 (sign_in_outcome _ w _ (signup_run payload w))) as Hkeep.
    destruct (signup payload w) as [[response|e] w1]; cbn [fst snd AuthDialog.loading AuthDialog.error] in *.
    + split; [reflexivity | split; [reflexivity | split]].
      * intros r Hr. injection Hr as ->. now split.
      * discriminate.
    + split; [reflexivity | split; [reflexivity | split]].
      * discriminate.
      * intros e' He. injection He as <-.
        split; [apply or_else_not_empty; discriminate |].
        split; [apply or_else_message |].
        split; [reflexivity | exact (proj1 (Hkeep e eq_refl))].
Qed.

(** X18.  When the server turns a login or a sign-up down with a non-2xx
    response whose body has a non-empty [message], the dialog shows exactly
    that message. *)
Theorem account_dialog_shows_the_server_message (has_onSuccess : bool) (w : World)
    (ui : AuthDialog.State) (response : Response Json) (body : Json) (m : string) :
  ok response = false -> json response = Fulfilled body ->
  message_of body = Some m -> m <> "" ->
  (forall payload : LoginPayload,
     network (sent w) (login_request payload w) = Fulfilled response ->
     AuthDialog.error
       (fst (fst (AuthDialog.handleLogin user_of has_onSuccess payload ui w))) = m) /\
  (forall payload : SignupPayload,
     network (sent w) (signup_request payload w) = Fulfilled response ->
     AuthDialog.error
       (fst (fst (AuthDialog.handleSignup user_of has_onSuccess payload ui w))) = m).
Proof.
  intros Hok Hj Hm Hne.
  assert (Hh : handled response = Rejected (Error m)).
  { unfold handled. rewrite Hok, Hj, Hm. now rewrite or_else_message. }
  split; intros payload Hnet.
  - unfold AuthDialog.handleLogin. rewrite login_run, Hnet, Hh.
    cbn [fst snd AuthDialog.error]. now apply or_else_message.
  - unfold AuthDialog.handleSignup. rewrite signup_run, Hnet, Hh.
    cbn [fst snd AuthDialog.error]. now apply or_else_message.
Qed.

End Dialog.

Section Weather.

Context {env : Environment}.
Variable location_of : Json -> Json.
Variable current_of : Json -> Json.
Variable timezone_of : Json -> string.
Variable truthy_json : Json -> bool.

Let fetchWeather := WeatherHome.fetchWeather location_of current_of truthy_json.
Let handleGeolocation := WeatherHome.handleGeolocation timezone_of truthy_json.

Lemma getWeatherByCoordinates_sends_two (lat lon : float) (days : option float) (w : World) :
  length (sent (snd (getWeatherByCoordinates lat lon days w))) = S (S (length (sent w))).
Proof.
  destruct (call_effects (GetWeatherByCoordinates lat lon days) w)
    as (new & Hsent & Hlen & _).
  change (call (GetWeatherByCoordinates lat lon days) w)
    with (getWeatherByCoordinates lat lon days w) in Hsent.
  rewrite Hsent, length_app, Hlen. simpl. lia.
Qed.

(** X19.  [handleGeolocation] sends requests only once it has a position,
    and then exactly two.  When the position promise rejects, nothing is sent
    and the error text is the message of the rejection; when it never
    settles, nothing is sent and the page stays in its loading state.  When
    the weather lookup succeeds, the location is named
    [Your Location (<formatted coordinates>)], with an empty country and the
    time zone of the current weather. *)
Theorem geolocation_lookup_needs_a_position (navigator : Navigator)
    (ui : WeatherHome.State) (w : World) :
  let r := handleGeolocation navigator ui w in
  (getCurrentPosition navigator = None ->
   snd r = w /\ WeatherHome.loading (fst r) = true /\
   WeatherHome.useGeolocation (fst r) = true) /\
  (forall err : Exn,
     getCurrentPosition navigator = Some (Rejected err) ->
     snd r = w /\ WeatherHome.error (fst r) <> "" /\
     (exn_message err <> "" -> WeatherHome.error (fst r) = exn_message err) /\
     WeatherHome.loading (fst r) = false) /\
  (sent (snd r) <> sent w ->
   exists position, getCurrentPosition navigator = Some (Fulfilled position)) /\
  (forall position : GeolocationPosition,
     getCurrentPosition navigator = Some (Fulfilled position) ->
     length (sent (snd r)) = S (S (length (sent w))) /\
     WeatherHome.loading (fst r) = false /\
     forall data,
       fst (getWeatherByCoordinates (latitude (coords position))
              (longitude (coords position)) (Some 7%float) w) = Fulfilled data ->
       WeatherHome.error (fst r) = "" /\
       WeatherHome.location (fst r) =
         Some (WeatherHome.DeviceLocation
                 ("Your Location (" +:+
                  Geolocation.formatCoordinates finite_toString
                    (latitude (coords position)) (longitude (coords position)) +:+ ")")
                 "" (latitude (coords position)) (longitude (coords position))
                 (timezone_of (current data)))).
Proof.
  intros r. subst r handleGeolocation. unfold WeatherHome.handleGeolocation.
  destruct (getCurrentPosition navigator) as [[position|err]|].
  - pose proof (getWeatherByCoordinates_sends_two (latitude (coords position))
                  (longitude (coords position)) (Some 7%float) w) as Hlen.
    split; [discriminate |]. split; [discriminate |].
    split; [intros _; now exists position |].
    intros p Hp. injection Hp as <-.
    destruct (getWeatherByCoordinates _ _ _ w) as [[data|e] w1];
      cbn [fst snd] in *.
    + split; [exact Hlen |]. split; [reflexivity |].
      intros d Hd. injection Hd as <-. split; [reflexivity |].
      reflexivity.
    + split; [exact Hlen |]. split; [reflexivity |]. discriminate.
  - cbn [fst snd].
    split; [discriminate |]. split.
    + intros e He. injection He as <-. split; [reflexivity |].
      split; [apply or_else_not_empty; discriminate |].
      split; [apply or_else_message | reflexivity].
    + split; [intros Hs; now destruct Hs | discriminate].
  - cbn [fst snd].
    split; [intros _; repeat split |]. split; [discriminate |].
    split; [intros Hs; now destruct Hs | discriminate].
Qed.

(** X20.  A failed search keeps on display what was there (location,
    current weather and forecast) next to the error text; a failed
    geolocation lookup clears the current weather and the forecast, and keeps
    the location. *)
Theorem failed_lookup_and_displayed_weather (ui : WeatherHome.State) (w : World) :
  (forall (searchLocation : string) (e : Exn),
     fst (getCompleteWeather searchLocation (Some 7%float) w) = Rejected e ->
     let ui' := fst (fetchWeather searchLocation ui w) in
     WeatherHome.location ui' = WeatherHome.location ui /\
     WeatherHome.currentWeather ui' = WeatherHome.currentWeather ui /\
     WeatherHome.forecast ui' = WeatherHome.forecast ui /\
     WeatherHome.error ui' <> "" /\ WeatherHome.loading ui' = false) /\
  (forall navigator : Navigator,
     let ui' := fst (handleGeolocation navigator ui w) in
     WeatherHome.error ui' <> "" ->
     WeatherHome.location ui' = WeatherHome.location ui /\
     WeatherHome.currentWeather ui' = None /\
     WeatherHome.forecast ui' = WeatherHome.NoDays /\
     WeatherHome.loading ui' = false /\ WeatherHome.useGeolocation ui' = false).
Proof.
  split.
  - intros q e He ui'. subst ui' fetchWeather. unfold WeatherHome.fetchWeather.
    destruct (getCompleteWeather q (Some 7%float) w) as [[data|e'] w1];
      cbn [fst snd] in *; [discriminate He |].
    repeat split. apply or_else_not_empty. discriminate.
  - intros navigator ui'. subst ui' handleGeolocation.
    unfold WeatherHome.handleGeolocation.
    destruct (getCurrentPosition navigator) as [[position|err]|].
    + destruct (getWeatherByCoordinates _ _ _ w) as [[data|e] w1]; cbn [fst snd].
      * intros H. now destruct H.
      * intros _. repeat split.
    + intros _. repeat split.
    + intros H. now destruct H.
Qed.

End Weather.

Section List.

Context {env : Environment}.

(** X21.  [handleDelete]: without an id to delete ([null], or the number
    0) it does nothing and sends nothing.  Otherwise, when the server accepts
    the deletion, the list loses exactly the items with that id, the others
    keep their order, the id is reset and [onRefresh], if given, is called
    once; when the deletion fails, the list and the id stay and the error
    text is not empty.  [deleting] is false at the end. *)
Theorem delete_removes_the_request_from_the_list (has_onRefresh : bool)
    (ui : RequestsList.State) (w : World) :
  let r := RequestsList.handleDelete has_onRefresh ui w in
  let ui' := fst (fst r) in
  (RequestsList.id_to_delete ui = None -> r = (ui, 0%nat, w)) /\
  (forall n : float,
     RequestsList.id_to_delete ui = Some n ->
     snd r = snd (deleteWeatherRequest n w) /\
     RequestsList.deleting ui' = false /\
     (forall body : Json,
        fst (deleteWeatherRequest n w) = Fulfilled body ->
        RequestsList.requests ui' =
          List.filter (fun item => negb (RequestsList.id item =? n)%float)
            (RequestsList.requests ui) /\
        (forall item, In item (RequestsList.requests ui') ->
           (RequestsList.id item =? n)%float = false /\ In item (RequestsList.requests ui)) /\
        RequestsList.deleteId ui' = None /\
        snd (fst r) = (if has_onRefresh then 1%nat else 0%nat)) /\
     (forall e : Exn,
        fst (deleteWeatherRequest n w) = Rejected e ->
        RequestsList.requests ui' = RequestsList.requests ui /\
        RequestsList.deleteId ui' = RequestsList.deleteId ui /\
        RequestsList.error ui' <> "" /\ snd (fst r) = 0%nat)).
Proof.
  intros r ui'. subst ui' r. unfold RequestsList.handleDelete.
  destruct (RequestsList.id_to_delete ui) as [n|].
  - split; [discriminate |]. intros n' Hn. injection Hn as <-.
    destruct (deleteWeatherRequest n w) as [[body|e] w1]; cbn [fst snd].
    + split; [reflexivity | split; [reflexivity | split]].
      * intros b _. split; [reflexivity |]. split; [| split; reflexivity].
        intros item Hin. cbn [RequestsList.requests] in Hin.
        apply filter_In in Hin. destruct Hin as [Hin Hid].
        split; [now apply negb_true_iff in Hid | exact Hin].
      * discriminate.
    + split; [reflexivity | split; [reflexivity | split]].
      * discriminate.
      * intros e' _. repeat split. apply or_else_not_empty. discriminate.
  - split; [reflexivity | discriminate].
Qed.

End List.

(** ** The pages against the sample servers *)

(** A signed-in visitor whose token the server no longer accepts. *)
Lemma data_page_is_shown_for_an_accepted_token_only_witness :
  getToken (snd (@DataPage.checkAuth (sample_env (always (Fulfilled unauthorized)) false)
                   DataPage.initial signed_in)) = None /\
  DataPage.pushed (fst (@DataPage.checkAuth (sample_env (always (Fulfilled unauthorized)) false)
                          DataPage.initial signed_in)) = ["/auth"].
Proof.
  destruct (@data_page_is_shown_for_an_accepted_token_only
              (sample_env (always (Fulfilled unauthorized)) false) signed_in)
    as (_ & _ & H3 & H4 & _).
  split.
  - exact (proj1 (H4 (Error "Invalid or expired token") eq_refl eq_refl)).
  - exact (H3 eq_refl).
Defined.

(** A login that the server turns down. *)
Lemma account_dialog_shows_the_server_message_witness :
  AuthDialog.error
    (fst (fst (@AuthDialog.handleLogin (sample_env (always (Fulfilled unauthorized)) false)
                 sample_user_of true ana_login
                 {| AuthDialog.loading := false; AuthDialog.error := "" |} signed_out)))
  = "Invalid or expired token".
Proof.
  exact (proj1
    (@account_dialog_shows_the_server_message
       (sample_env (always (Fulfilled unauthorized)) false) sample_user_of true signed_out
       {| AuthDialog.loading := false; AuthDialog.error := "" |} unauthorized
       (ErrorBody "unauthorized" (Some "Invalid or expired token"))
       "Invalid or expired token" eq_refl eq_refl eq_refl ltac:(discriminate))
    ana_login eq_refl).
Defined.

(** A visitor who denies the permission: nothing is sent. *)
Lemma geolocation_lookup_needs_a_position_witness :
  snd (@WeatherHome.handleGeolocation (sample_env (weather_server []) false)
         (fun _ => "Asia/Manila") (fun _ => true)
         (GeolocationAdapter.navigator_calling [GeolocationAdapter.OnError 1])
         (blank_home _) signed_out) = signed_out /\
  WeatherHome.error
    (fst (@WeatherHome.handleGeolocation (sample_env (weather_server []) false)
            (fun _ => "Asia/Manila") (fun _ => true)
            (GeolocationAdapter.navigator_calling [GeolocationAdapter.OnError 1])
            (blank_home _) signed_out))
  = "Unable to access your location. Please enable location permissions in your browser settings.".
Proof.
  destruct (@geolocation_lookup_needs_a_position (sample_env (weather_server []) false)
              (fun _ => "Asia/Manila") (fun _ => true)
              (GeolocationAdapter.navigator_calling [GeolocationAdapter.OnError 1])
              (blank_home _) signed_out) as (_ & H & _).
  destruct (H _ eq_refl) as (H1 & _ & H3 & _).
  split; [exact H1 | exact (H3 ltac:(discriminate))].
Defined.

(** The sample list, from which the two items with id 3 go. *)
Lemma delete_removes_the_request_from_the_list_witness :
  RequestsList.requests
    (fst (fst (@RequestsList.handleDelete (sample_env (always (Fulfilled deleted)) false)
                 true RequestsList.sample_list signed_in)))
  = [RequestsList.list_item 5 "Cebu"].
Proof.
  destruct (@delete_removes_the_request_from_the_list
              (sample_env (always (Fulfilled deleted)) false) true
              RequestsList.sample_list signed_in) as (_ & H).
  destruct (H 3%float eq_refl) as (_ & _ & Hok & _).
  exact (proj1 (Hok (WeatherBody "Weather request deleted") eq_refl)).
Defined.

End PagesSpec.
